(** * Solo Leveling habit API: the rule engine, the lifecycle manager and
      the reporters of [api copy.py], embedded over an explicit store.

    The Python endpoints talk to PostgreSQL through one psycopg2 connection
    per call.  The store is modelled as a record of tables, a connection as
    a committed store plus the working copy of the open transaction, and
    every endpoint as a program in a small state-and-exception monad whose
    statements are the [cur.execute] calls of the source, in source order. *)

From Stdlib Require Import ZArith Lia Ascii String.
From stdpp Require Import base strings list gmap sorting pretty.

Open Scope string_scope.
Open Scope list_scope.
Open Scope Z_scope.

(** ** Python primitives used by the endpoints *)

Module Py.

(** Strings are byte strings: a character outside ASCII is the sequence of
    its UTF-8 bytes.  The functions below follow CPython on ASCII input;
    bytes above 127 are copied by [repr] and refused by [int] (CPython
    also reads the decimal digits and blanks of other scripts), and the
    cap CPython puts on the length of an integer literal is left out. *)

Definition code (c : ascii) : Z := Z.of_nat (nat_of_ascii c).

(** [Py_ISSPACE]: the blanks that [int] skips around a literal. *)
Definition is_space (c : ascii) : bool :=
  ((9 <=? code c) && (code c <=? 13)) || (code c =? 32).

Fixpoint lstrip (s : string) : string :=
  match s with
  | String c s' => if is_space c then lstrip s' else s
  | EmptyString => EmptyString
  end.

Definition rstrip (s : string) : string :=
  String.rev (lstrip (String.rev s)).

Definition strip (s : string) : string := rstrip (lstrip s).

Definition digit_of (c : ascii) : option Z :=
  if (48 <=? code c) && (code c <=? 57) then Some (code c - 48) else None.

(** The digits of a base-10 literal; a single underscore may separate two
    digits.  [prev] tells whether the previous character was a digit. *)
Fixpoint int_digits (acc : Z) (prev : bool) (s : string) : option Z :=
  match s with
  | EmptyString => if prev then Some acc else None
  | String c s' =>
      match digit_of c with
      | Some d => int_digits (10 * acc + d) true s'
      | None =>
          if (code c =? 95) && prev then
            match s' with
            | EmptyString => None
            | String _ _ => int_digits acc false s'
            end
          else None
      end
  end.

(** [int(s)] for a string [s]; [None] stands for [ValueError]. *)
Definition int (s : string) : option Z :=
  match strip s with
  | String c r =>
      if code c =? 43 then int_digits 0 false r
      else if code c =? 45 then Z.opp <$> int_digits 0 false r
      else int_digits 0 false (String c r)
  | EmptyString => None
  end.

(** [s.split(sep)] with an explicit one-character separator: every
    occurrence cuts, empty pieces are kept. *)
Fixpoint split (sep : ascii) (s : string) : list string :=
  match s with
  | EmptyString => [EmptyString]
  | String c s' =>
      if Ascii.eqb c sep then EmptyString :: split sep s'
      else
        match split sep s' with
        | piece :: rest => String c piece :: rest
        | [] => [String c EmptyString]
        end
  end.

Fixpoint zeros (n : nat) : string :=
  match n with
  | O => EmptyString
  | S n' => String "0" (zeros n')
  end.

(** [format(z, "0<width>d")]: sign first, then zeros up to the width. *)
Definition format_0d (width : nat) (z : Z) : string :=
  let sign := if z <? 0 then "-" else "" in
  let body := pretty (Z.abs z) in
  sign +:+ zeros (width - String.length sign - String.length body) +:+ body.

(** [str(z)] for an integer. *)
Definition str_int (z : Z) : string := pretty z.

Definition hex_digit (n : Z) : ascii :=
  if n <? 10 then ascii_of_nat (Z.to_nat (48 + n))
  else ascii_of_nat (Z.to_nat (87 + n)).

Fixpoint contains (q : ascii) (s : string) : bool :=
  match s with
  | EmptyString => false
  | String c s' => Ascii.eqb c q || contains q s'
  end.

Definition squote : ascii := ascii_of_nat 39.
Definition dquote : ascii := ascii_of_nat 34.
Definition backslash : ascii := ascii_of_nat 92.

Definition repr_char (quote c : ascii) : string :=
  if Ascii.eqb c quote || Ascii.eqb c backslash
  then String backslash (String c EmptyString)
  else if code c =? 9 then String backslash "t"
  else if code c =? 10 then String backslash "n"
  else if code c =? 13 then String backslash "r"
  else if (code c <? 32) || (code c =? 127)
  then String backslash
         (String "x" (String (hex_digit (code c / 16))
                        (String (hex_digit (code c mod 16)) EmptyString)))
  else String c EmptyString.

Fixpoint repr_body (quote : ascii) (s : string) : string :=
  match s with
  | EmptyString => EmptyString
  | String c s' => repr_char quote c +:+ repr_body quote s'
  end.

(** [repr(s)] for a string: single quotes unless the string holds a single
    quote and no double quote. *)
Definition repr_str (s : string) : string :=
  let quote := if contains squote s && negb (contains dquote s)
               then dquote else squote in
  String quote (repr_body quote s +:+ String quote EmptyString).

Fixpoint join (sep : string) (l : list string) : string :=
  match l with
  | [] => EmptyString
  | [x] => x
  | x :: rest => x +:+ sep +:+ join sep rest
  end.

(** [str(l)] for a list of strings. *)
Definition str_list (l : list string) : string :=
  "[" +:+ join ", " (repr_str <$> l) +:+ "]".

(** [l[:-1]]: every element but the last; the empty list stays empty. *)
Definition slice_to_minus_1 {A} (l : list A) : list A :=
  take (length l - 1)%nat l.

End Py.

(** ** Values of the store *)

Module datetime.

(** [datetime.time], as psycopg2 returns it for a TIME column. *)
Record time := mkTime {
  hour : Z;
  minute : Z;
  second : Z;
  microsecond : Z
}.

(** [datetime.date]. *)
Record date := mkDate {
  year : Z;
  month : Z;
  day : Z
}.

(** [str(t)] is [t.isoformat()]. *)
Definition str_time (t : time) : string :=
  Py.format_0d 2 (hour t) +:+ ":" +:+ Py.format_0d 2 (minute t) +:+ ":" +:+
  Py.format_0d 2 (second t) +:+
  (if microsecond t =? 0 then "" else "." +:+ Py.format_0d 6 (microsecond t)).

(** [str(d)] is [d.isoformat()]. *)
Definition str_date (d : date) : string :=
  Py.format_0d 4 (year d) +:+ "-" +:+ Py.format_0d 2 (month d) +:+ "-" +:+
  Py.format_0d 2 (day d).

(** The chronological order, which [ORDER BY] uses on a date column. *)
Definition date_le (a b : date) : Prop :=
  year a < year b ∨
  (year a = year b ∧
   (month a < month b ∨ (month a = month b ∧ day a ≤ day b))).

#[global] Instance date_le_dec : RelDecision date_le.
Proof. intros a b. unfold date_le. apply _. Defined.

#[global] Instance date_eq_dec : EqDecision date.
Proof. solve_decision. Defined.

#[global] Instance time_eq_dec : EqDecision time.
Proof. solve_decision. Defined.

End datetime.

(** A value bound to a statement parameter, or read back from a column.
    The table declarations are not part of the sources: the columns
    [current_value], [next_suggested_value], [previous_value] and
    [new_value] hold the value the statement was given. *)
Inductive sqlval :=
| VTime (t : datetime.time)
| VText (s : string)
| VNull.

#[global] Instance sqlval_eq_dec : EqDecision sqlval.
Proof. solve_decision. Defined.

(** [str(v)], as an f-string interpolates a value read from the store. *)
Definition str_val (v : sqlval) : string :=
  match v with
  | VTime t => datetime.str_time t
  | VText s => s
  | VNull => "None"
  end.

(** ** The tables *)

(** One module per table; a field is a column and keeps its name.  An
    array column holds [Some l] when the driver returns a Python list and
    [None] when it returns anything else (NULL). *)

Module daily_routines.
Record row := mk {
  user_id : Z;
  date : datetime.date;
  wake_up_time : datetime.time;
  sleep_time : datetime.time;
  meal_times : option (list string);
  workout : string;
  bad_habits : option (list string);
  energy_level : Z;
  stress_level : Z
}.
End daily_routines.

Module habit_adjustments.
Record row := mk {
  adjustment_id : Z;
  user_id : Z;
  applied_on : datetime.date;
  current_value : sqlval;
  next_suggested_value : sqlval;
  reason : string;
  status : string;
  habit : string
}.

#[global] Instance row_eq_dec : EqDecision row.
Proof. solve_decision. Defined.
End habit_adjustments.

Module habit_history.
Record row := mk {
  user_id : Z;
  habit : string;
  previous_value : sqlval;
  new_value : sqlval;
  status : string;
  date_applied : datetime.date
}.

#[global] Instance row_eq_dec : EqDecision row.
Proof. solve_decision. Defined.
End habit_history.

(** The store.  [adjustment_id_seq] is the next key the store hands out
    for [habit_adjustments.adjustment_id], which no INSERT of the sources
    supplies. *)
Record DB := mkDB {
  routines : list daily_routines.row;
  adjustments : list habit_adjustments.row;
  history : list habit_history.row;
  adjustment_id_seq : Z
}.

(** ** Connections, transactions and the statement monad *)

(** A psycopg2 connection: the first statement opens a transaction, the
    statements work on [working], and [commit] publishes it.  [observed]
    logs, after each statement of the call, the committed store, which is
    what any other connection reads at that moment. *)
Record Conn := mkConn {
  committed : DB;
  working : DB;
  observed : list DB
}.

Definition connect (db : DB) : Conn :=
  {| committed := db; working := db; observed := [] |}.

(** [get_db_connection()]: [None] when psycopg2 cannot connect. *)
Definition get_db_connection (up : bool) (db : DB) : option Conn :=
  if up then Some (connect db) else None.

Inductive exn :=
| ValueError
| HTTPException (status_code : Z) (detail : string).

Inductive result (A : Type) :=
| Return (a : A)
| Raise (e : exn).
Arguments Return {A} a.
Arguments Raise {A} e.

Definition M (A : Type) : Type := Conn → result A * Conn.

#[global] Instance M_ret : MRet M := λ A a c, (Return a, c).

#[global] Instance M_bind : MBind M := λ A B f m c,
  match m c with
  | (Return a, c') => f a c'
  | (Raise e, c') => (Raise e, c')
  end.

Definition raise {A} (e : exn) : M A := λ c, (Raise e, c).

(** A Python call that returns or raises [e]. *)
Definition or_raise {A} (e : exn) (o : option A) : M A :=
  match o with
  | Some a => mret a
  | None => raise e
  end.

Definition tick (c : Conn) : Conn :=
  {| committed := committed c; working := working c;
     observed := observed c ++ [committed c] |}.

(** [cur.execute] of a SELECT followed by a fetch. *)
Definition execute_select {A} (q : DB → A) : M A :=
  λ c, (Return (q (working c)), tick c).

(** [cur.execute] of an INSERT or a DELETE. *)
Definition execute (u : DB → DB) : M unit :=
  λ c, (Return (),
        tick {| committed := committed c; working := u (working c);
                observed := observed c |}).

(** [conn.commit()]. *)
Definition commit : M unit :=
  λ c, (Return (),
        tick {| committed := working c; working := working c;
                observed := observed c |}).

(** ** Responses *)

(** One proposal of the rule engine: [{"habit": .., "suggested_change": ..}]. *)
Module adjustment.
Inductive change :=
| Str (s : string)
| StrList (l : list string).
Record t := mk {
  habit : string;
  suggested_change : change
}.
End adjustment.

(** One line of the progress report. *)
Module entry.
Record t := mk {
  habit : string;
  previous_value : sqlval;
  new_value : sqlval;
  date : string
}.
End entry.

Inductive response :=
| Null
| Message (message : string)
| Error (error : string)
| Adjustments (adjustments : list adjustment.t)
| Progress (accepted pending rejected : list entry.t)
| Projections (habit_projections : list string)
| Exception (e : exn).

(** What a call leaves behind: the response, the store as committed when
    the call ends (a transaction left open is rolled back with the
    connection) and the log of the committed store during the call. *)
Record outcome := mkOutcome {
  reply : response;
  store : DB;
  seen : list DB
}.

Definition finish (r : result response * Conn) : outcome :=
  {| reply := match r.1 with Return v => v | Raise e => Exception e end;
     store := committed r.2;
     seen := observed r.2 |}.

Definition no_connection (db : DB) : outcome :=
  {| reply := Null; store := db; seen := [] |}.

(** ** The statements *)

Module sql.

(** SELECT habit FROM habit_adjustments
    WHERE user_id = %s AND status = 'pending' *)
Definition pending_habits (user_id : Z) (db : DB) : list string :=
  habit_adjustments.habit <$>
  filter (λ a, habit_adjustments.user_id a = user_id ∧
               habit_adjustments.status a = "pending") (adjustments db).

(** SELECT wake_up_time, sleep_time, meal_times, energy_level,
    stress_level, bad_habits, workout FROM daily_routines
    WHERE user_id = %s ORDER BY date DESC LIMIT 1 *)
Definition latest_routine (user_id : Z) (db : DB) :
  option (datetime.time * datetime.time * option (list string) * Z * Z *
          option (list string) * string) :=
  (λ r, (daily_routines.wake_up_time r, daily_routines.sleep_time r,
         daily_routines.meal_times r, daily_routines.energy_level r,
         daily_routines.stress_level r, daily_routines.bad_habits r,
         daily_routines.workout r)) <$>
  head (merge_sort
          (λ a b, datetime.date_le (daily_routines.date b)
                                   (daily_routines.date a))
          (filter (λ r, daily_routines.user_id r = user_id) (routines db))).

(** The row an INSERT into [habit_adjustments] stores under key [id]. *)
Definition pending_row (today : datetime.date) (id : Z)
    (params : Z * sqlval * sqlval * string * string) : habit_adjustments.row :=
  let '(user_id, current_value, next_suggested_value, reason, habit) :=
    params in
  {| habit_adjustments.adjustment_id := id;
     habit_adjustments.user_id := user_id;
     habit_adjustments.applied_on := today;
     habit_adjustments.current_value := current_value;
     habit_adjustments.next_suggested_value := next_suggested_value;
     habit_adjustments.reason := reason;
     habit_adjustments.status := "pending";
     habit_adjustments.habit := habit |}.

(** INSERT INTO habit_adjustments (user_id, applied_on, current_value,
    next_suggested_value, reason, status, habit)
    VALUES (%s, CURRENT_DATE, %s, %s, %s, 'pending', %s) *)
Definition insert_adjustment (today : datetime.date)
    (params : Z * sqlval * sqlval * string * string) (db : DB) : DB :=
  {| routines := routines db;
     adjustments :=
       adjustments db ++ [pending_row today (adjustment_id_seq db) params];
     history := history db;
     adjustment_id_seq := adjustment_id_seq db + 1 |}.

(** SELECT user_id, habit, current_value, next_suggested_value
    FROM habit_adjustments WHERE adjustment_id = %s, then [fetchone] *)
Definition adjustment_by_id (adjustment_id : Z) (db : DB) :
  option (Z * string * sqlval * sqlval) :=
  (λ a, (habit_adjustments.user_id a, habit_adjustments.habit a,
         habit_adjustments.current_value a,
         habit_adjustments.next_suggested_value a)) <$>
  head (filter (λ a, habit_adjustments.adjustment_id a = adjustment_id)
          (adjustments db)).

(** INSERT INTO habit_history (user_id, habit, previous_value, new_value,
    status) VALUES (%s, %s, %s, %s, '<status>'); the store dates the row. *)
Definition insert_history (today : datetime.date) (status : string)
    (params : Z * string * sqlval * sqlval) (db : DB) : DB :=
  let '(user_id, habit, previous_value, new_value) := params in
  {| routines := routines db;
     adjustments := adjustments db;
     history := history db ++
       [ {| habit_history.user_id := user_id;
            habit_history.habit := habit;
            habit_history.previous_value := previous_value;
            habit_history.new_value := new_value;
            habit_history.status := status;
            habit_history.date_applied := today |} ];
     adjustment_id_seq := adjustment_id_seq db |}.

(** DELETE FROM habit_adjustments WHERE adjustment_id = %s *)
Definition delete_adjustment (adjustment_id : Z) (db : DB) : DB :=
  {| routines := routines db;
     adjustments :=
       filter (λ a, habit_adjustments.adjustment_id a ≠ adjustment_id)
         (adjustments db);
     history := history db;
     adjustment_id_seq := adjustment_id_seq db |}.

(** The rows of a user in [habit_adjustments], ORDER BY applied_on ASC. *)
Definition adjustment_rows (user_id : Z) (db : DB) :
  list habit_adjustments.row :=
  merge_sort
    (λ a b, datetime.date_le (habit_adjustments.applied_on a)
                             (habit_adjustments.applied_on b))
    (filter (λ a, habit_adjustments.user_id a = user_id) (adjustments db)).

(** SELECT habit, current_value, next_suggested_value, status, applied_on
    FROM habit_adjustments WHERE user_id = %s ORDER BY applied_on ASC *)
Definition adjustments_of (user_id : Z) (db : DB) :
  list (string * sqlval * sqlval * string * datetime.date) :=
  (λ a, (habit_adjustments.habit a, habit_adjustments.current_value a,
         habit_adjustments.next_suggested_value a,
         habit_adjustments.status a, habit_adjustments.applied_on a)) <$>
  adjustment_rows user_id db.

(** The accepted rows of a user in [habit_history],
    ORDER BY date_applied ASC. *)
Definition accepted_rows (user_id : Z) (db : DB) : list habit_history.row :=
  merge_sort
    (λ a b, datetime.date_le (habit_history.date_applied a)
                             (habit_history.date_applied b))
    (filter (λ h, habit_history.user_id h = user_id ∧
                  habit_history.status h = "accepted") (history db)).

(** SELECT habit, previous_value, new_value, date_applied
    FROM habit_history WHERE user_id = %s AND status = 'accepted'
    ORDER BY date_applied ASC *)
Definition accepted_history (user_id : Z) (db : DB) :
  list (string * sqlval * sqlval * datetime.date) :=
  (λ h, (habit_history.habit h, habit_history.previous_value h,
         habit_history.new_value h, habit_history.date_applied h)) <$>
  accepted_rows user_id db.

(** The rows of a user in [habit_history], ORDER BY date_applied DESC. *)
Definition history_rows (user_id : Z) (db : DB) : list habit_history.row :=
  merge_sort
    (λ a b, datetime.date_le (habit_history.date_applied b)
                             (habit_history.date_applied a))
    (filter (λ h, habit_history.user_id h = user_id) (history db)).

(** SELECT habit, previous_value, new_value, status, date_applied
    FROM habit_history WHERE user_id = %s ORDER BY date_applied DESC *)
Definition history_of (user_id : Z) (db : DB) :
  list (string * sqlval * sqlval * string * datetime.date) :=
  (λ h, (habit_history.habit h, habit_history.previous_value h,
         habit_history.new_value h, habit_history.status h,
         habit_history.date_applied h)) <$>
  history_rows user_id db.

End sql.

(** ** The rule engine: [GET /adjust_habits/{user_id}] *)

Definition isinstance_list (v : option (list string)) : bool :=
  match v with Some _ => true | None => false end.

(** Truth value of a column value: [None] and the empty list are false. *)
Definition truthy (v : option (list string)) : bool :=
  match v with Some (_ :: _) => true | _ => false end.

Definition as_list (v : option (list string)) : list string := default [] v.

Definition hh_mm (h m : Z) : string :=
  Py.format_0d 2 h +:+ ":" +:+ Py.format_0d 2 m.

(** Wake-Up Time Adjustment *)
Definition wake_up_rule (today : datetime.date) (user_id : Z)
    (existing_habits : gset string) (wake_up_time sleep_time : datetime.time)
    (adjustments : list adjustment.t) : M (list adjustment.t) :=
  if bool_decide ("wake_up_time" ∉ existing_habits) &&
     (datetime.hour sleep_time >? 1)
  then
    let new_wake_time :=
      hh_mm (Z.max 6 (datetime.hour wake_up_time - 1))
            (datetime.minute wake_up_time) in
    let adjustments :=
      adjustments ++ [adjustment.mk "wake_up_time"
                        (adjustment.Str new_wake_time)] in
    execute (sql.insert_adjustment today
               (user_id, VTime wake_up_time, VText new_wake_time,
                "Gradual wake-up shift", "wake_up_time"));;
    mret adjustments
  else mret adjustments.

(** Sleep Time Adjustment *)
Definition sleep_rule (today : datetime.date) (user_id : Z)
    (existing_habits : gset string) (sleep_time : datetime.time)
    (adjustments : list adjustment.t) : M (list adjustment.t) :=
  if bool_decide ("sleep_time" ∉ existing_habits) &&
     (datetime.hour sleep_time >? 1)
  then
    let new_sleep_time :=
      hh_mm (Z.max 22 (datetime.hour sleep_time - 1))
            (datetime.minute sleep_time) in
    let adjustments :=
      adjustments ++ [adjustment.mk "sleep_time"
                        (adjustment.Str new_sleep_time)] in
    execute (sql.insert_adjustment today
               (user_id, VTime sleep_time, VText new_sleep_time,
                "Improve sleep quality", "sleep_time"));;
    mret adjustments
  else mret adjustments.

(** [h, m = map(int, time.split(":"))]: anything but two integer literals
    is a [ValueError], here [None]. *)
Definition unpack_ints (parts : list string) : option (Z * Z) :=
  match parts with
  | [a; b] =>
      match Py.int a, Py.int b with
      | Some h, Some m => Some (h, m)
      | _, _ => None
      end
  | _ => None
  end.

(** The body of [for time in meal_times]. *)
Fixpoint meal_loop (today : datetime.date) (user_id : Z)
    (meal_times new_meal_times : list string) : M (list string) :=
  match meal_times with
  | [] => mret new_meal_times
  | time :: rest =>
      '(h, m) ← or_raise ValueError (unpack_ints (Py.split ":" time));
      let new_time := hh_mm (Z.max 6 (h - 1)) m in
      let new_meal_times := new_meal_times ++ [new_time] in
      execute (sql.insert_adjustment today
                 (user_id, VText time, VText new_time,
                  "Optimize meal timing", "meal_times"));;
      meal_loop today user_id rest new_meal_times
  end.

(** Meal Timing Adjustment *)
Definition meal_rule (today : datetime.date) (user_id : Z)
    (existing_habits : gset string) (meal_times : option (list string))
    (adjustments : list adjustment.t) : M (list adjustment.t) :=
  if bool_decide ("meal_times" ∉ existing_habits) &&
     isinstance_list meal_times
  then
    new_meal_times ← meal_loop today user_id (as_list meal_times) [];
    mret (adjustments ++ [adjustment.mk "meal_times"
                            (adjustment.StrList new_meal_times)])
  else mret adjustments.

(** Bad Habits Reduction (Remove one at a time) *)
Definition bad_habits_rule (today : datetime.date) (user_id : Z)
    (existing_habits : gset string) (bad_habits : option (list string))
    (adjustments : list adjustment.t) : M (list adjustment.t) :=
  if bool_decide ("bad_habits" ∉ existing_habits) &&
     isinstance_list bad_habits && truthy bad_habits
  then
    let reduced_bad_habits := Py.slice_to_minus_1 (as_list bad_habits) in
    let adjustments :=
      adjustments ++ [adjustment.mk "bad_habits"
                        (adjustment.StrList reduced_bad_habits)] in
    execute (sql.insert_adjustment today
               (user_id, VText (Py.str_list (as_list bad_habits)),
                VText (Py.str_list reduced_bad_habits),
                "Reduce negative habits", "bad_habits"));;
    mret adjustments
  else mret adjustments.

Definition no_routine : string := "❌ No routine data found for this user".

(** The statements of [adjust_habits] once the connection is there. *)
Definition adjust_habits_on (today : datetime.date) (user_id : Z) :
  M response :=
  pending ← execute_select (sql.pending_habits user_id);
  let existing_habits : gset string := list_to_set pending in
  routine ← execute_select (sql.latest_routine user_id);
  match routine with
  | None => mret (Message no_routine)
  | Some (wake_up_time, sleep_time, meal_times, energy_level, stress_level,
          bad_habits, workout) =>
      let adjustments := [] in
      adjustments ← wake_up_rule today user_id existing_habits
                      wake_up_time sleep_time adjustments;
      adjustments ← sleep_rule today user_id existing_habits
                      sleep_time adjustments;
      adjustments ← meal_rule today user_id existing_habits
                      meal_times adjustments;
      adjustments ← bad_habits_rule today user_id existing_habits
                      bad_habits adjustments;
      commit;;
      mret (Adjustments adjustments)
  end.

Definition adjust_habits (up : bool) (today : datetime.date) (db : DB)
    (user_id : Z) : outcome :=
  match get_db_connection up db with
  | Some conn => finish (adjust_habits_on today user_id conn)
  | None => no_connection db
  end.

(** ** The lifecycle manager: [POST /update_habit/{adjustment_id}] *)

Definition invalid_status : string :=
  "Invalid status. Must be 'accepted' or 'rejected'.".

Definition no_adjustment : string :=
  "❌ No habit adjustment found for this ID.".

Definition moved_to_history (adjustment_id : Z) (status : string) : string :=
  "✅ Habit adjustment " +:+ Py.str_int adjustment_id +:+ " marked as " +:+
  status +:+ " and moved to history.".

Definition update_habit_on (today : datetime.date) (adjustment_id : Z)
    (status : string) : M response :=
  adjustment ← execute_select (sql.adjustment_by_id adjustment_id);
  match adjustment with
  | None => mret (Error no_adjustment)
  | Some (user_id, habit, previous_value, new_value) =>
      (if bool_decide (status = "accepted") then
         execute (sql.insert_history today "accepted"
                    (user_id, habit, previous_value, new_value))
       else if bool_decide (status = "rejected") then
         execute (sql.insert_history today "rejected"
                    (user_id, habit, previous_value, new_value))
       else mret ());;
      execute (sql.delete_adjustment adjustment_id);;
      commit;;
      mret (Message (moved_to_history adjustment_id status))
  end.

Definition update_habit (up : bool) (today : datetime.date) (db : DB)
    (adjustment_id : Z) (status : string) : outcome :=
  if bool_decide (status ∉ ["accepted"; "rejected"]) then
    {| reply := Exception (HTTPException 400 invalid_status);
       store := db; seen := [] |}
  else
    match get_db_connection up db with
    | Some conn => finish (update_habit_on today adjustment_id status conn)
    | None => no_connection db
    end.

(** ** The progress report: [GET /habit_progress/{user_id}] *)

Definition no_progress : string := "No habit progress data found.".

(** One turn of the loop over the fetched rows; the three lists are the
    values of ["accepted"], ["pending"] and ["rejected"]. *)
Definition progress_step
    (progress_data : list entry.t * list entry.t * list entry.t)
    (row : string * sqlval * sqlval * string * datetime.date) :
  list entry.t * list entry.t * list entry.t :=
  let '(accepted, pending, rejected) := progress_data in
  let '(habit, current_value, next_suggested_value, status, applied_on) :=
    row in
  let entry :=
    {| entry.habit := habit;
       entry.previous_value := current_value;
       entry.new_value := next_suggested_value;
       entry.date := datetime.str_date applied_on |} in
  if bool_decide (status = "accepted") then
    (accepted ++ [entry], pending, rejected)
  else if bool_decide (status = "pending") then
    (accepted, pending ++ [entry], rejected)
  else (accepted, pending, rejected ++ [entry]).

Definition habit_progress_on (user_id : Z) : M response :=
  adjustments ← execute_select (sql.adjustments_of user_id);
  match adjustments with
  | [] => mret (Message no_progress)
  | _ :: _ =>
      let '(accepted, pending, rejected) :=
        foldl progress_step ([], [], []) adjustments in
      mret (Progress accepted pending rejected)
  end.

Definition habit_progress (up : bool) (db : DB) (user_id : Z) : outcome :=
  match get_db_connection up db with
  | Some conn => finish (habit_progress_on user_id conn)
  | None => no_connection db
  end.

(** ** The projections reporter: [GET /habit_projections/{user_id}] *)

(** A Python dict with string keys: the items in insertion order. *)
Module dict.
Section ops.
Context {V : Type}.

Fixpoint get (k : string) (d : list (string * V)) : option V :=
  match d with
  | [] => None
  | (k', v) :: d' => if bool_decide (k' = k) then Some v else get k d'
  end.

(** [k in d] *)
Definition mem (k : string) (d : list (string * V)) : bool :=
  match get k d with Some _ => true | None => false end.

(** [d[k] = v]: a new key goes last, a present key keeps its place. *)
Fixpoint set (k : string) (v : V) (d : list (string * V)) :
  list (string * V) :=
  match d with
  | [] => [(k, v)]
  | (k', v') :: d' =>
      if bool_decide (k' = k) then (k, v) :: d' else (k', v') :: set k v d'
  end.

(** In-place change of the object stored under [k]. *)
Fixpoint alter (f : V → V) (k : string) (d : list (string * V)) :
  list (string * V) :=
  match d with
  | [] => []
  | (k', v') :: d' =>
      if bool_decide (k' = k) then (k', f v') :: d'
      else (k', v') :: alter f k d'
  end.
End ops.
End dict.

(** The inner dict [{"start": .., "current": .., "trend": [..]}]. *)
Record projection := mkProjection {
  start : sqlval;
  current : sqlval;
  trend : list (datetime.date * sqlval)
}.

Definition no_projection : string := "No habit progress found for this user.".

(** One turn of [for habit, prev, new, date in history]. *)
Definition projections_step (projections : list (string * projection))
    (row : string * sqlval * sqlval * datetime.date) :
  list (string * projection) :=
  let '(habit, prev, new, date) := row in
  let projections :=
    if negb (dict.mem habit projections)
    then dict.set habit {| start := prev; current := new; trend := [] |}
           projections
    else projections in
  let projections :=
    dict.alter (λ data, {| start := start data; current := current data;
                           trend := trend data ++ [(date, new)] |})
      habit projections in
  dict.alter (λ data, {| start := start data; current := new;
                         trend := trend data |})
    habit projections.

Definition future_prediction (habit : string) (data : projection) : string :=
  "If you continue, your " +:+ habit +:+ " could improve from '" +:+
  str_val (start data) +:+ "' to '" +:+ str_val (current data) +:+
  "' within a few months!".

Definition future_insight (item : string * projection) : string :=
  "📈 " +:+ future_prediction item.1 item.2.

Definition habit_projections_on (user_id : Z) : M response :=
  history ← execute_select (sql.accepted_history user_id);
  match history with
  | [] => mret (Message no_projection)
  | _ :: _ =>
      let projections := foldl projections_step [] history in
      mret (Projections (future_insight <$> projections))
  end.

Definition habit_projections (up : bool) (db : DB) (user_id : Z) : outcome :=
  match get_db_connection up db with
  | Some conn => finish (habit_projections_on user_id conn)
  | None => no_connection db
  end.

(** ** The history report and the chat insights:
       [GET /habit_history/{user_id}], [GET /chat_insights/{user_id}] *)

(** What these two endpoints answer: nothing at all without a connection,
    a message, the two history buckets, or the list of insights. *)
Inductive report :=
| NoAnswer
| Note (message : string)
| History (accepted rejected : list entry.t)
| Insights (insights : list string)
| Failed (e : exn).

Record reported := mkReported {
  answer : report;
  store_after : DB;
  seen_during : list DB
}.

Definition finish_report (r : result report * Conn) : reported :=
  {| answer := match r.1 with Return v => v | Raise e => Failed e end;
     store_after := committed r.2;
     seen_during := observed r.2 |}.

Definition no_history : string := "No habit history found for this user.".

(** One turn of the loop of [habit_history]; the two lists are the values
    of ["accepted"] and ["rejected"]. *)
Definition history_step (history_data : list entry.t * list entry.t)
    (row : string * sqlval * sqlval * string * datetime.date) :
  list entry.t * list entry.t :=
  let '(accepted, rejected) := history_data in
  let '(habit, previous_value, new_value, status, date_applied) := row in
  let entry :=
    {| entry.habit := habit;
       entry.previous_value := previous_value;
       entry.new_value := new_value;
       entry.date := datetime.str_date date_applied |} in
  if bool_decide (status = "accepted") then (accepted ++ [entry], rejected)
  else (accepted, rejected ++ [entry]).

Definition habit_history_on (user_id : Z) : M report :=
  history ← execute_select (sql.history_of user_id);
  match history with
  | [] => mret (Note no_history)
  | _ :: _ =>
      let '(accepted, rejected) := foldl history_step ([], []) history in
      mret (History accepted rejected)
  end.

Definition habit_history (up : bool) (db : DB) (user_id : Z) : reported :=
  match get_db_connection up db with
  | Some conn => finish_report (habit_history_on user_id conn)
  | None => {| answer := NoAnswer; store_after := db; seen_during := [] |}
  end.

Definition kept_up (habit : string) (prev new : sqlval)
    (date : datetime.date) : string :=
  "✅ You successfully changed " +:+ habit +:+ " from '" +:+ str_val prev +:+
  "' to '" +:+ str_val new +:+ "' on " +:+ datetime.str_date date +:+
  ". Keep it up!".

Definition own_pace (habit : string) (prev new : sqlval)
    (date : datetime.date) : string :=
  "❌ You decided not to change " +:+ habit +:+ " from '" +:+ str_val prev +:+
  "' to '" +:+ str_val new +:+ "' on " +:+ datetime.str_date date +:+
  ". That’s okay! Adjust at your own pace.".

(** One turn of the loop of [chat_insights]. *)
Definition insight_step (insights : list string)
    (row : string * sqlval * sqlval * string * datetime.date) : list string :=
  let '(habit, prev, new, status, date) := row in
  if bool_decide (status = "accepted") then
    insights ++ [kept_up habit prev new date]
  else if bool_decide (status = "rejected") then
    insights ++ [own_pace habit prev new date]
  else insights.

Definition chat_insights_on (user_id : Z) : M report :=
  history ← execute_select (sql.history_of user_id);
  match history with
  | [] => mret (Note no_history)
  | _ :: _ => mret (Insights (foldl insight_step [] history))
  end.

Definition chat_insights (up : bool) (db : DB) (user_id : Z) : reported :=
  match get_db_connection up db with
  | Some conn => finish_report (chat_insights_on user_id conn)
  | None => {| answer := NoAnswer; store_after := db; seen_during := [] |}
  end.

(** ** Notions the statements use *)

(** The pending records of a user for one habit name. *)
Definition pending_of (user_id : Z) (h : string) (db : DB) :
  list habit_adjustments.row :=
  filter (λ a, habit_adjustments.user_id a = user_id ∧
               habit_adjustments.status a = "pending" ∧
               habit_adjustments.habit a = h) (adjustments db).

(** The invariant of the data model: at most one pending record per habit
    name for the user. *)
Definition one_pending_per_habit (db : DB) (user_id : Z) : Prop :=
  ∀ h, (length (pending_of user_id h db) ≤ 1)%nat.

(** The proposals a response carries. *)
Definition proposed (r : response) : list adjustment.t :=
  match r with
  | Adjustments l => l
  | _ => []
  end.

(** The new time the meal loop computes for one entry, when it parses. *)
Definition shifted (time : string) : option string :=
  '(h, m) ← unpack_ints (Py.split ":" time);
  Some (hh_mm (Z.max 6 (h - 1)) m).

(** Every meal time of the column parses. *)
Definition well_formed (meal_times : option (list string)) : Prop :=
  Forall (λ time, is_Some (shifted time)) (as_list meal_times).

(** [n] statements that change the working copy by [u] and commit nothing. *)
Definition steps (n : nat) (u : DB → DB) (c : Conn) : Conn :=
  {| committed := committed c; working := u (working c);
     observed := observed c ++ replicate n (committed c) |}.

(** A program is quiet when it commits nothing: whatever it answers, the
    committed store is the one it started from, and so is every entry it
    adds to the log. *)
Definition quiet {A} (m : M A) : Prop :=
  ∀ c, committed (m c).2 = committed c ∧
       ∃ n, observed (m c).2 = observed c ++ replicate n (committed c).

(** A run of INSERTs into [habit_adjustments]. *)
Definition inserted (today : datetime.date)
    (params : list (Z * sqlval * sqlval * string * string)) (db : DB) : DB :=
  foldl (λ d p, sql.insert_adjustment today p d) db params.

(** What each rule amounts to: whether it fires, the proposals it appends
    and the parameters of the INSERTs it issues. *)
Module rules.

Definition wake_up_fires (existing_habits : gset string)
    (sleep_time : datetime.time) : bool :=
  bool_decide ("wake_up_time" ∉ existing_habits) &&
  (datetime.hour sleep_time >? 1).

Definition sleep_fires (existing_habits : gset string)
    (sleep_time : datetime.time) : bool :=
  bool_decide ("sleep_time" ∉ existing_habits) &&
  (datetime.hour sleep_time >? 1).

Definition meal_fires (existing_habits : gset string)
    (meal_times : option (list string)) : bool :=
  bool_decide ("meal_times" ∉ existing_habits) && isinstance_list meal_times.

Definition bad_habits_fires (existing_habits : gset string)
    (bad_habits : option (list string)) : bool :=
  bool_decide ("bad_habits" ∉ existing_habits) &&
  isinstance_list bad_habits && truthy bad_habits.

Definition new_wake_time (wake_up_time : datetime.time) : string :=
  hh_mm (Z.max 6 (datetime.hour wake_up_time - 1))
        (datetime.minute wake_up_time).

Definition new_sleep_time (sleep_time : datetime.time) : string :=
  hh_mm (Z.max 22 (datetime.hour sleep_time - 1))
        (datetime.minute sleep_time).

Definition wake_up_proposals (ex : gset string)
    (wake_up_time sleep_time : datetime.time) : list adjustment.t :=
  if wake_up_fires ex sleep_time
  then [adjustment.mk "wake_up_time"
          (adjustment.Str (new_wake_time wake_up_time))]
  else [].

Definition wake_up_params (user_id : Z) (ex : gset string)
    (wake_up_time sleep_time : datetime.time) :
  list (Z * sqlval * sqlval * string * string) :=
  if wake_up_fires ex sleep_time
  then [(user_id, VTime wake_up_time, VText (new_wake_time wake_up_time),
         "Gradual wake-up shift", "wake_up_time")]
  else [].

Definition sleep_proposals (ex : gset string) (sleep_time : datetime.time) :
  list adjustment.t :=
  if sleep_fires ex sleep_time
  then [adjustment.mk "sleep_time"
          (adjustment.Str (new_sleep_time sleep_time))]
  else [].

Definition sleep_params (user_id : Z) (ex : gset string)
    (sleep_time : datetime.time) :
  list (Z * sqlval * sqlval * string * string) :=
  if sleep_fires ex sleep_time
  then [(user_id, VTime sleep_time, VText (new_sleep_time sleep_time),
         "Improve sleep quality", "sleep_time")]
  else [].

Definition meal_param (user_id : Z) (time new_time : string) :
  Z * sqlval * sqlval * string * string :=
  (user_id, VText time, VText new_time, "Optimize meal timing", "meal_times").

Definition meal_proposals (ex : gset string)
    (meal_times : option (list string)) (new_meal_times : list string) :
  list adjustment.t :=
  if meal_fires ex meal_times
  then [adjustment.mk "meal_times" (adjustment.StrList new_meal_times)]
  else [].

Definition meal_params (user_id : Z) (ex : gset string)
    (meal_times : option (list string)) (new_meal_times : list string) :
  list (Z * sqlval * sqlval * string * string) :=
  if meal_fires ex meal_times
  then zip_with (meal_param user_id) (as_list meal_times) new_meal_times
  else [].

Definition bad_habits_proposals (ex : gset string)
    (bad_habits : option (list string)) : list adjustment.t :=
  if bad_habits_fires ex bad_habits
  then [adjustment.mk "bad_habits"
          (adjustment.StrList (Py.slice_to_minus_1 (as_list bad_habits)))]
  else [].

Definition bad_habits_params (user_id : Z) (ex : gset string)
    (bad_habits : option (list string)) :
  list (Z * sqlval * sqlval * string * string) :=
  if bad_habits_fires ex bad_habits
  then [(user_id, VText (Py.str_list (as_list bad_habits)),
         VText (Py.str_list (Py.slice_to_minus_1 (as_list bad_habits))),
         "Reduce negative habits", "bad_habits")]
  else [].

End rules.

(** The INSERT parameters that store a pending record of [user_id] for
    habit [h]. *)
Definition for_habit (user_id : Z) (h : string)
    (params : Z * sqlval * sqlval * string * string) : Prop :=
  params.1.1.1.1 = user_id ∧ params.2 = h.

#[global] Instance for_habit_dec user_id h params :
  Decision (for_habit user_id h params).
Proof. unfold for_habit. apply _. Defined.

(** The line of the progress report for one stored adjustment. *)
Definition entry_of (a : habit_adjustments.row) : entry.t :=
  {| entry.habit := habit_adjustments.habit a;
     entry.previous_value := habit_adjustments.current_value a;
     entry.new_value := habit_adjustments.next_suggested_value a;
     entry.date := datetime.str_date (habit_adjustments.applied_on a) |}.

(** The history entry a resolution of [a] writes. *)
Definition archived (today : datetime.date) (status : string)
    (a : habit_adjustments.row) : habit_history.row :=
  {| habit_history.user_id := habit_adjustments.user_id a;
     habit_history.habit := habit_adjustments.habit a;
     habit_history.previous_value := habit_adjustments.current_value a;
     habit_history.new_value := habit_adjustments.next_suggested_value a;
     habit_history.status := status;
     habit_history.date_applied := today |}.

(** The habit names of a list in the order of their first occurrence. *)
Fixpoint first_seen (l : list string) : list string :=
  match l with
  | [] => []
  | h :: l' => h :: filter (λ h', h' ≠ h) (first_seen l')
  end.

(** The rows of the accepted history that belong to one habit. *)
Definition rows_of (h : string) (rows : list habit_history.row) :
  list habit_history.row :=
  filter (λ row, habit_history.habit row = h) rows.

(** START: the previous value of the first row of the habit. *)
Definition start_of (h : string) (rows : list habit_history.row) :
  option sqlval :=
  habit_history.previous_value <$> head (rows_of h rows).

(** CURRENT: the new value of the last row of the habit. *)
Definition current_of (h : string) (rows : list habit_history.row) :
  option sqlval :=
  habit_history.new_value <$> last (rows_of h rows).

(** The inner dict the loop has built for habit [h] once it has gone
    through [rows]. *)
Definition summary (h : string) (rows : list habit_history.row) :
  projection :=
  {| start := default VNull (start_of h rows);
     current := default VNull (current_of h rows);
     trend := (λ row, (habit_history.date_applied row,
                       habit_history.new_value row)) <$> rows_of h rows |}.

(** Every row of [habit_adjustments] has status "pending". *)
Definition all_pending (db : DB) : Prop :=
  Forall (λ a, habit_adjustments.status a = "pending") (adjustments db).

(** Every row of [habit_history] has status "accepted" or "rejected". *)
Definition resolved_only (db : DB) : Prop :=
  Forall (λ h, habit_history.status h = "accepted" ∨
               habit_history.status h = "rejected") (history db).

(** The four habit names of the rule engine. *)
Definition habit_names : list string :=
  ["wake_up_time"; "sleep_time"; "meal_times"; "bad_habits"].

(** The SELECT tuple of a routine row. *)
Definition routine_tuple (r : daily_routines.row) :
  datetime.time * datetime.time * option (list string) * Z * Z *
  option (list string) * string :=
  (daily_routines.wake_up_time r, daily_routines.sleep_time r,
   daily_routines.meal_times r, daily_routines.energy_level r,
   daily_routines.stress_level r, daily_routines.bad_habits r,
   daily_routines.workout r).

(** The line of the history report for one history entry. *)
Definition entry_of_history (h : habit_history.row) : entry.t :=
  {| entry.habit := habit_history.habit h;
     entry.previous_value := habit_history.previous_value h;
     entry.new_value := habit_history.new_value h;
     entry.date := datetime.str_date (habit_history.date_applied h) |}.

(** The insight of one history entry, if its status has one. *)
Definition insight_of (h : habit_history.row) : option string :=
  if bool_decide (habit_history.status h = "accepted") then
    Some (kept_up (habit_history.habit h) (habit_history.previous_value h)
            (habit_history.new_value h) (habit_history.date_applied h))
  else if bool_decide (habit_history.status h = "rejected") then
    Some (own_pace (habit_history.habit h) (habit_history.previous_value h)
            (habit_history.new_value h) (habit_history.date_applied h))
  else None.

(** ** Sample stores *)

Module sample.

Definition today : datetime.date := datetime.mkDate 2025 2 6.

(** User 1 went to bed at 03:15 and got up at 07:00. *)
Definition routine : daily_routines.row :=
  {| daily_routines.user_id := 1;
     daily_routines.date := datetime.mkDate 2025 2 5;
     daily_routines.wake_up_time := datetime.mkTime 7 0 0 0;
     daily_routines.sleep_time := datetime.mkTime 3 15 0 0;
     daily_routines.meal_times := Some ["07:00"; "12:30"; "19:00"];
     daily_routines.workout := "15-minute walk";
     daily_routines.bad_habits := Some ["coffee"; "sugar"; "lateNight"];
     daily_routines.energy_level := 5;
     daily_routines.stress_level := 6 |}.

(** A store with that routine and nothing pending. *)
Definition fresh : DB :=
  {| routines := [routine]; adjustments := []; history := [];
     adjustment_id_seq := 1 |}.

(** The same store after one call of the rule engine. *)
Definition proposed_once : DB := store (adjust_habits true today fresh 1).

(** User 2 recorded a day without any meal. *)
Definition no_meals : DB :=
  {| routines :=
       [ {| daily_routines.user_id := 2;
            daily_routines.date := datetime.mkDate 2025 2 5;
            daily_routines.wake_up_time := datetime.mkTime 8 0 0 0;
            daily_routines.sleep_time := datetime.mkTime 0 30 0 0;
            daily_routines.meal_times := Some [];
            daily_routines.workout := "";
            daily_routines.bad_habits := Some [];
            daily_routines.energy_level := 3;
            daily_routines.stress_level := 3 |} ];
     adjustments := []; history := []; adjustment_id_seq := 1 |}.

(** An adjustment whose status is none of the three the code writes. *)
Definition expired : habit_adjustments.row :=
  {| habit_adjustments.adjustment_id := 7;
     habit_adjustments.user_id := 1;
     habit_adjustments.applied_on := datetime.mkDate 2025 1 31;
     habit_adjustments.current_value := VText "23:30";
     habit_adjustments.next_suggested_value := VText "22:30";
     habit_adjustments.reason := "Improve sleep quality";
     habit_adjustments.status := "expired";
     habit_adjustments.habit := "sleep_time" |}.

Definition with_expired : DB :=
  {| routines := [routine]; adjustments := [expired]; history := [];
     adjustment_id_seq := 8 |}.

Definition resolved (habit : string) (previous_value new_value : string)
    (status : string) (d : Z) : habit_history.row :=
  {| habit_history.user_id := 1;
     habit_history.habit := habit;
     habit_history.previous_value := VText previous_value;
     habit_history.new_value := VText new_value;
     habit_history.status := status;
     habit_history.date_applied := datetime.mkDate 2025 2 d |}.

(** A history stored out of date order, with one rejected entry. *)
Definition with_history : DB :=
  {| routines := [routine];
     adjustments := [];
     history :=
       [ resolved "wake_up_time" "08:00" "07:00" "accepted" 3;
         resolved "sleep_time" "01:00" "00:00" "accepted" 2;
         resolved "wake_up_time" "09:00" "08:00" "accepted" 1;
         resolved "sleep_time" "00:00" "23:00" "rejected" 4 ];
     adjustment_id_seq := 1 |}.

End sample.

(** Further stores, for the properties beyond the rule texts. *)
Module scenario.


(** The sample store after the proposals under keys 1 and 2 were
    accepted and rejected. *)
Definition resolved_twice : DB :=
  store (update_habit true sample.today
           (store (update_habit true sample.today sample.proposed_once 1
                     "accepted")) 2 "rejected").

(** A history with an entry whose status the code never writes. *)
Definition odd_history : DB :=
  {| routines := [];
     adjustments := [];
     history :=
       [ sample.resolved "wake_up_time" "08:00" "07:00" "accepted" 3;
         sample.resolved "sleep_time" "01:00" "00:00" "postponed" 5 ];
     adjustment_id_seq := 1 |}.

(** Two routines of user 1, the older one stored last. *)
Definition two_days : DB :=
  {| routines :=
       [ sample.routine;
         {| daily_routines.user_id := 1;
            daily_routines.date := datetime.mkDate 2025 1 20;
            daily_routines.wake_up_time := datetime.mkTime 10 0 0 0;
            daily_routines.sleep_time := datetime.mkTime 23 45 0 0;
            daily_routines.meal_times := None;
            daily_routines.workout := "";
            daily_routines.bad_habits := None;
            daily_routines.energy_level := 2;
            daily_routines.stress_level := 2 |} ];
     adjustments := []; history := []; adjustment_id_seq := 1 |}.

End scenario.

(** * Proofs *)

(** ** Running the statement monad *)

Section run.
Context {A B : Type}.

Lemma run_bind (m : M A) (f : A → M B) (c : Conn) :
  (m ≫= f) c =
  match m c with
  | (Return a, c') => f a c'
  | (Raise e, c') => (Raise e, c')
  end.
Proof. reflexivity. Qed.

Lemma run_ret (a : A) (c : Conn) : (mret a : M A) c = (Return a, c).
Proof. reflexivity. Qed.

Lemma run_select (q : DB → A) (c : Conn) :
  execute_select q c = (Return (q (working c)), steps 1 id c).
Proof. reflexivity. Qed.

End run.

Lemma run_execute (u : DB → DB) (c : Conn) :
  execute u c = (Return (), steps 1 u c).
Proof. reflexivity. Qed.

Lemma steps_nop (u : DB → DB) (c : Conn) :
  (∀ d, u d = d) → steps 0 u c = c.
Proof.
  intros Hu. destruct c as [cm wk ob]. unfold steps. simpl.
  by rewrite Hu, app_nil_r.
Qed.

Lemma steps_steps (n m : nat) (u v : DB → DB) (c : Conn) :
  steps n u (steps m v c) = steps (m + n) (u ∘ v) c.
Proof.
  unfold steps. simpl. by rewrite <- app_assoc, replicate_add.
Qed.

Lemma inserted_app today ps1 ps2 db :
  inserted today ps2 (inserted today ps1 db) = inserted today (ps1 ++ ps2) db.
Proof. unfold inserted. by rewrite foldl_app. Qed.

Lemma steps_inserted today (n m : nat) ps1 ps2 (c : Conn) :
  steps n (inserted today ps2) (steps m (inserted today ps1) c) =
  steps (m + n) (inserted today (ps1 ++ ps2)) c.
Proof.
  rewrite steps_steps. unfold steps. simpl. by rewrite inserted_app.
Qed.

Lemma quiet_ret {A} (a : A) : quiet (mret a).
Proof. intros c. split; [done|]. exists 0%nat. simpl. by rewrite app_nil_r. Qed.

Lemma quiet_raise {A} (e : exn) : quiet (@raise A e).
Proof. intros c. split; [done|]. exists 0%nat. simpl. by rewrite app_nil_r. Qed.

Lemma quiet_or_raise {A} (e : exn) (o : option A) : quiet (or_raise e o).
Proof. destruct o; [apply quiet_ret | apply quiet_raise]. Qed.

Lemma quiet_select {A} (q : DB → A) : quiet (execute_select q).
Proof. intros c. split; [done|]. by exists 1%nat. Qed.

Lemma quiet_execute (u : DB → DB) : quiet (execute u).
Proof. intros c. split; [done|]. by exists 1%nat. Qed.

Lemma quiet_bind {A B} (m : M A) (f : A → M B) :
  quiet m → (∀ a, quiet (f a)) → quiet (m ≫= f).
Proof.
  intros Hm Hf c. rewrite run_bind.
  destruct (Hm c) as [Hc [n Hn]].
  destruct (m c) as [[a|e] c'] eqn:E; simpl in *.
  - destruct (Hf a c') as [Hc' [k Hk]]. split; [congruence|].
    exists (n + k)%nat.
    by rewrite Hk, Hn, Hc, <- app_assoc, replicate_add.
  - split; [done|]. by exists n.
Qed.

Create HintDb quiet.
#[export] Hint Resolve quiet_ret quiet_raise quiet_or_raise quiet_select
  quiet_execute : quiet.

(** ** The four rules *)

Section rule_runs.
Variable today : datetime.date.
Variable user_id : Z.
Variable ex : gset string.

Lemma wake_up_rule_run w s adj c :
  wake_up_rule today user_id ex w s adj c =
  (Return (adj ++ rules.wake_up_proposals ex w s),
   steps (length (rules.wake_up_params user_id ex w s))
     (inserted today (rules.wake_up_params user_id ex w s)) c).
Proof.
  unfold wake_up_rule, rules.wake_up_proposals, rules.wake_up_params.
  fold (rules.wake_up_fires ex s).
  destruct (rules.wake_up_fires ex s); simpl.
  - reflexivity.
  - by rewrite app_nil_r, steps_nop.
Qed.

Lemma sleep_rule_run s adj c :
  sleep_rule today user_id ex s adj c =
  (Return (adj ++ rules.sleep_proposals ex s),
   steps (length (rules.sleep_params user_id ex s))
     (inserted today (rules.sleep_params user_id ex s)) c).
Proof.
  unfold sleep_rule, rules.sleep_proposals, rules.sleep_params.
  fold (rules.sleep_fires ex s).
  destruct (rules.sleep_fires ex s); simpl.
  - reflexivity.
  - by rewrite app_nil_r, steps_nop.
Qed.

Lemma bad_habits_rule_run bad adj c :
  bad_habits_rule today user_id ex bad adj c =
  (Return (adj ++ rules.bad_habits_proposals ex bad),
   steps (length (rules.bad_habits_params user_id ex bad))
     (inserted today (rules.bad_habits_params user_id ex bad)) c).
Proof.
  unfold bad_habits_rule, rules.bad_habits_proposals, rules.bad_habits_params.
  fold (rules.bad_habits_fires ex bad).
  destruct (rules.bad_habits_fires ex bad); simpl.
  - reflexivity.
  - by rewrite app_nil_r, steps_nop.
Qed.

(** The loop over well-formed meal times: one INSERT per entry, in order. *)
Lemma meal_loop_run l news acc c :
  Forall2 (λ time new_time, shifted time = Some new_time) l news →
  meal_loop today user_id l acc c =
  (Return (acc ++ news),
   steps (length l)
     (inserted today (zip_with (rules.meal_param user_id) l news)) c).
Proof.
  intros H. revert acc c.
  induction H as [|time new_time rest news Hs _ IH]; intros acc c.
  - simpl. by rewrite app_nil_r, steps_nop.
  - unfold shifted in Hs.
    cbn [meal_loop]. rewrite run_bind.
    destruct (unpack_ints (Py.split ":" time)) as [[h m]|]; [|done].
    simpl in Hs. injection Hs as <-.
    cbn [or_raise]. rewrite run_ret, run_bind, run_execute, IH.
    rewrite steps_steps. cbn [zip_with length].
    by rewrite <- app_assoc.
Qed.

(** A malformed entry ends the loop with [ValueError]. *)
Lemma meal_loop_raise l acc c :
  ¬ Forall (λ time, is_Some (shifted time)) l →
  ∃ c', meal_loop today user_id l acc c = (Raise ValueError, c').
Proof.
  revert acc c. induction l as [|time rest IH]; intros acc c H.
  - by destruct H.
  - cbn [meal_loop]. rewrite run_bind.
    destruct (unpack_ints (Py.split ":" time)) as [[h m]|] eqn:E.
    + cbn [or_raise]. rewrite run_ret, run_bind, run_execute.
      apply IH. intros Hrest. apply H. constructor; [|done].
      unfold shifted. rewrite E. by eexists.
    + by eexists.
Qed.

Lemma meal_loop_quiet l acc : quiet (meal_loop today user_id l acc).
Proof.
  revert acc. induction l as [|time rest IH]; intros acc; simpl.
  - auto with quiet.
  - apply quiet_bind; [auto with quiet|]. intros [h m].
    apply quiet_bind; [auto with quiet|]. intros _. apply IH.
Qed.

Lemma meal_rule_quiet meals adj : quiet (meal_rule today user_id ex meals adj).
Proof.
  unfold meal_rule. destruct (_ && _); [|auto with quiet].
  apply quiet_bind; [apply meal_loop_quiet|]. intros ?. auto with quiet.
Qed.

Lemma meal_rule_run meals news adj c :
  rules.meal_fires ex meals = false ∨
  Forall2 (λ time new_time, shifted time = Some new_time)
    (as_list meals) news →
  meal_rule today user_id ex meals adj c =
  (Return (adj ++ rules.meal_proposals ex meals news),
   steps (length (rules.meal_params user_id ex meals news))
     (inserted today (rules.meal_params user_id ex meals news)) c).
Proof.
  unfold meal_rule, rules.meal_proposals, rules.meal_params.
  fold (rules.meal_fires ex meals).
  destruct (rules.meal_fires ex meals); intros [H|H]; try done.
  - rewrite run_bind, (meal_loop_run _ news _ _ H), run_ret.
    rewrite length_zip_with, <- (Forall2_length _ _ _ H), Nat.min_id.
    done.
  - simpl. by rewrite app_nil_r, steps_nop.
  - simpl. by rewrite app_nil_r, steps_nop.
Qed.

Lemma meal_rule_raise meals adj c :
  rules.meal_fires ex meals = true →
  ¬ well_formed meals →
  ∃ c', meal_rule today user_id ex meals adj c = (Raise ValueError, c') ∧
        committed c' = committed c ∧
        ∃ n, observed c' = observed c ++ replicate n (committed c).
Proof.
  intros Hf Hw.
  destruct (meal_rule_quiet meals adj c) as [Hc Ho].
  unfold meal_rule in *. fold (rules.meal_fires ex meals) in *.
  rewrite Hf in *. rewrite run_bind in *.
  destruct (meal_loop_raise (as_list meals) [] c Hw) as [c' E].
  rewrite E in *. by exists c'.
Qed.

End rule_runs.

(** ** The rule engine as a whole *)

Lemma well_formed_news meals :
  well_formed meals →
  ∃ news, Forall2 (λ time new_time, shifted time = Some new_time)
            (as_list meals) news.
Proof.
  unfold well_formed. generalize (as_list meals). intros l H.
  induction H as [|time rest [n Hn] _ [news IH]].
  - by exists [].
  - exists (n :: news). by constructor.
Qed.

Section engine.
Variable today : datetime.date.
Variable db : DB.
Variable user_id : Z.

Let ex : gset string := list_to_set (sql.pending_habits user_id db).

Lemma adjust_habits_no_connection :
  adjust_habits false today db user_id = no_connection db.
Proof. reflexivity. Qed.

Lemma adjust_habits_no_routine :
  sql.latest_routine user_id db = None →
  adjust_habits true today db user_id =
  {| reply := Message no_routine; store := db; seen := [db; db] |}.
Proof.
  intros H. unfold adjust_habits, get_db_connection, adjust_habits_on.
  rewrite run_bind, run_select, run_bind, run_select. simpl.
  rewrite H. reflexivity.
Qed.

(** The call answers with proposals whenever the meal loop meets no
    malformed entry: the four rules in source order, then one commit. *)
Lemma adjust_habits_answers w s meals e st bad wk news :
  sql.latest_routine user_id db = Some (w, s, meals, e, st, bad, wk) →
  rules.meal_fires ex meals = false ∨
  Forall2 (λ time new_time, shifted time = Some new_time)
    (as_list meals) news →
  let params :=
    rules.wake_up_params user_id ex w s ++ rules.sleep_params user_id ex s ++
    rules.meal_params user_id ex meals news ++
    rules.bad_habits_params user_id ex bad in
  adjust_habits true today db user_id =
  {| reply := Adjustments
       (rules.wake_up_proposals ex w s ++ rules.sleep_proposals ex s ++
        rules.meal_proposals ex meals news ++
        rules.bad_habits_proposals ex bad);
     store := inserted today params db;
     seen := replicate (2 + length params) db ++ [inserted today params db] |}.
Proof.
  intros H Hm params. unfold adjust_habits, get_db_connection, adjust_habits_on.
  rewrite run_bind, run_select, run_bind, run_select.
  cbn [steps working committed observed connect id]. rewrite H.
  fold ex.
  rewrite run_bind, wake_up_rule_run.
  rewrite run_bind, sleep_rule_run.
  rewrite run_bind, (meal_rule_run _ _ _ _ news _ _ Hm).
  rewrite run_bind, bad_habits_rule_run.
  rewrite !steps_inserted.
  unfold finish, steps, commit. simpl. subst params.
  by rewrite !length_app, <- !app_assoc.
Qed.

(** A malformed meal time met by the loop aborts the call: the answer is
    the unhandled [ValueError] and the transaction is never committed. *)
Lemma adjust_habits_raises w s meals e st bad wk :
  sql.latest_routine user_id db = Some (w, s, meals, e, st, bad, wk) →
  rules.meal_fires ex meals = true →
  ¬ well_formed meals →
  ∃ n, adjust_habits true today db user_id =
       {| reply := Exception ValueError; store := db;
          seen := replicate n db |}.
Proof.
  intros H Hf Hw. unfold adjust_habits, get_db_connection, adjust_habits_on.
  rewrite run_bind, run_select, run_bind, run_select.
  cbn [steps working committed observed connect id]. rewrite H.
  fold ex.
  rewrite run_bind, wake_up_rule_run.
  rewrite run_bind, sleep_rule_run.
  rewrite run_bind.
  match goal with
  | |- context [meal_rule _ _ _ _ ?adj ?c] =>
      destruct (meal_rule_raise today user_id ex meals adj c Hf Hw)
        as (c' & -> & Hc & k & Ho)
  end.
  unfold finish. cbn [fst snd]. rewrite Hc, Ho.
  cbn [steps committed observed connect].
  exists (2 + (length (rules.wake_up_params user_id ex w s) +
               (length (rules.sleep_params user_id ex s) + k)))%nat.
  rewrite !replicate_add, <- !app_assoc. reflexivity.
Qed.

End engine.

(** ** What a run of INSERTs leaves in the store *)

Section inserts.
Variable today : datetime.date.

Lemma inserted_cons p ps db :
  inserted today (p :: ps) db = inserted today ps (sql.insert_adjustment today p db).
Proof. reflexivity. Qed.

Lemma inserted_routines ps db : routines (inserted today ps db) = routines db.
Proof.
  revert db. induction ps as [|p ps IH]; intros db; [done|].
  by rewrite inserted_cons, IH.
Qed.

Lemma inserted_history ps db : history (inserted today ps db) = history db.
Proof.
  revert db. induction ps as [|p ps IH]; intros db; [done|].
  by rewrite inserted_cons, IH.
Qed.

(** The rows are appended in order, keyed from the store's sequence. *)
Lemma inserted_adjustments ps db :
  adjustments (inserted today ps db) =
  adjustments db ++
  imap (λ i p, sql.pending_row today (adjustment_id_seq db + Z.of_nat i) p) ps.
Proof.
  revert db. induction ps as [|p ps IH]; intros db.
  - simpl. by rewrite app_nil_r.
  - rewrite inserted_cons, IH. cbn [sql.insert_adjustment adjustments
      adjustment_id_seq imap]. rewrite <- app_assoc. simpl.
    rewrite Z.add_0_r. do 2 f_equal. apply imap_ext. intros i x _. simpl.
    f_equal. lia.
Qed.

Lemma inserted_seq ps db :
  adjustment_id_seq (inserted today ps db) =
  adjustment_id_seq db + Z.of_nat (length ps).
Proof.
  revert db. induction ps as [|p ps IH]; intros db.
  - simpl. lia.
  - rewrite inserted_cons, IH. simpl. lia.
Qed.

(** Filtering the table after the INSERTs: the old matches, then as many
    new ones as there are matching parameter tuples. *)
Lemma filter_inserted (P : habit_adjustments.row → Prop)
    `{∀ a, Decision (P a)}
    (Q : Z * sqlval * sqlval * string * string → Prop)
    `{∀ p, Decision (Q p)} ps db :
  (∀ id p, P (sql.pending_row today id p) ↔ Q p) →
  ∃ rows, filter P (adjustments (inserted today ps db)) =
          filter P (adjustments db) ++ rows ∧
          length rows = length (filter Q ps).
Proof.
  intros HPQ. revert db. induction ps as [|p ps IH]; intros db.
  - exists []. simpl. by rewrite app_nil_r.
  - rewrite inserted_cons. destruct (IH (sql.insert_adjustment today p db))
      as (rows & -> & Hlen).
    cbn [sql.insert_adjustment adjustments]. rewrite filter_app.
    rewrite filter_cons, (filter_cons Q). rewrite filter_nil.
    destruct (decide (P _)) as [HP|HP], (decide (Q p)) as [HQ|HQ].
    + eexists (_ :: rows). rewrite <- app_assoc. split; [done|].
      simpl. by rewrite Hlen.
    + destruct HQ. by apply (HPQ (adjustment_id_seq db)).
    + destruct HP. by apply HPQ.
    + exists rows. by rewrite app_nil_r.
Qed.

Lemma pending_of_inserted user_id h ps db :
  ∃ rows, pending_of user_id h (inserted today ps db) =
          pending_of user_id h db ++ rows ∧
          length rows = length (filter (for_habit user_id h) ps).
Proof.
  unfold pending_of. apply filter_inserted.
  intros id [[[[u cv] nv] r] hb]. unfold for_habit. simpl. intuition.
Qed.

End inserts.

(** ** How many records each rule stores for a given habit name *)

Ltac absurd_case :=
  exfalso; solve [intuition auto | intuition discriminate].

Section counts.
Variable user_id : Z.
Variable ex : gset string.
Variable h : string.

Ltac count_one fires :=
  destruct fires eqn:Hf; cbn [length filter];
  [ rewrite filter_cons, filter_nil; unfold for_habit at 1; cbn [fst snd];
    repeat case_decide; cbn [length]; try done; absurd_case
  | rewrite filter_nil; repeat case_decide; cbn [length]; try done;
    absurd_case ].

Lemma wake_up_params_for w s :
  length (filter (for_habit user_id h) (rules.wake_up_params user_id ex w s)) =
  if decide (h = "wake_up_time" ∧ rules.wake_up_fires ex s = true)
  then 1%nat else 0%nat.
Proof.
  unfold rules.wake_up_params. count_one (rules.wake_up_fires ex s).
Qed.

Lemma sleep_params_for s :
  length (filter (for_habit user_id h) (rules.sleep_params user_id ex s)) =
  if decide (h = "sleep_time" ∧ rules.sleep_fires ex s = true)
  then 1%nat else 0%nat.
Proof.
  unfold rules.sleep_params. count_one (rules.sleep_fires ex s).
Qed.

Lemma bad_habits_params_for bad :
  length (filter (for_habit user_id h)
            (rules.bad_habits_params user_id ex bad)) =
  if decide (h = "bad_habits" ∧ rules.bad_habits_fires ex bad = true)
  then 1%nat else 0%nat.
Proof.
  unfold rules.bad_habits_params. count_one (rules.bad_habits_fires ex bad).
Qed.

Lemma meal_params_zip l news :
  length (filter (for_habit user_id h)
            (zip_with (rules.meal_param user_id) l news)) =
  if decide (h = "meal_times")
  then length (zip_with (rules.meal_param user_id) l news) else 0%nat.
Proof.
  revert news. induction l as [|time l IH]; intros [|n news];
    try (by case_decide).
  cbn [zip_with]. rewrite filter_cons. unfold for_habit at 1.
  cbn [rules.meal_param fst snd]. specialize (IH news).
  repeat case_decide; cbn [length]; try done; try (by f_equal); absurd_case.
Qed.

Lemma meal_params_for meals news :
  length (filter (for_habit user_id h)
            (rules.meal_params user_id ex meals news)) =
  if decide (h = "meal_times" ∧ rules.meal_fires ex meals = true)
  then length (zip_with (rules.meal_param user_id) (as_list meals) news)
  else 0%nat.
Proof.
  unfold rules.meal_params.
  destruct (rules.meal_fires ex meals) eqn:Hf.
  - rewrite meal_params_zip.
    repeat case_decide; try done; absurd_case.
  - rewrite filter_nil. case_decide; [|done]. absurd_case.
Qed.

End counts.

(** A rule that fires found its habit name absent from the pending set. *)
Lemma fires_not_pending (ex : gset string) s meals bad h :
  h ∈ ex →
  ¬ (h = "wake_up_time" ∧ rules.wake_up_fires ex s = true) ∧
  ¬ (h = "sleep_time" ∧ rules.sleep_fires ex s = true) ∧
  ¬ (h = "meal_times" ∧ rules.meal_fires ex meals = true) ∧
  ¬ (h = "bad_habits" ∧ rules.bad_habits_fires ex bad = true).
Proof.
  intros Hin.
  unfold rules.wake_up_fires, rules.sleep_fires, rules.meal_fires,
    rules.bad_habits_fires.
  repeat split; intros [-> Hf];
    repeat (apply andb_prop in Hf; destruct Hf as [Hf ?]);
    by apply bool_decide_eq_true in Hf.
Qed.

(** The pending set the engine reads holds exactly the habit names with a
    pending record of the user. *)
Lemma pending_habits_spec user_id db h :
  h ∈ (list_to_set (sql.pending_habits user_id db) : gset string) ↔
  pending_of user_id h db ≠ [].
Proof.
  rewrite elem_of_list_to_set. unfold sql.pending_habits, pending_of.
  rewrite list_elem_of_fmap. split.
  - intros (a & -> & Ha). apply list_elem_of_filter in Ha as [[Hu Hs] Ha].
    intros Hnil. assert (Hin : a ∈ @nil habit_adjustments.row);
      [|by apply not_elem_of_nil in Hin].
    rewrite <- Hnil. apply list_elem_of_filter. auto.
  - intros Hne. destruct (filter _ _) as [|a l] eqn:E; [done|].
    assert (Ha : a ∈ a :: l) by left. rewrite <- E in Ha.
    apply list_elem_of_filter in Ha as [(Hu & Hs & Hh) Ha].
    exists a. split; [done|]. apply list_elem_of_filter. auto.
Qed.

(** The records one call stores for habit [h]: none when [h] is in the
    pending set, at most one unless [h] is the meal habit. *)
Lemma params_for_habit user_id (ex : gset string) w s meals news bad h :
  let n := length (filter (for_habit user_id h)
             (rules.wake_up_params user_id ex w s ++
              rules.sleep_params user_id ex s ++
              rules.meal_params user_id ex meals news ++
              rules.bad_habits_params user_id ex bad)) in
  (h ∈ ex → n = 0%nat) ∧
  (h ≠ "meal_times" → (n ≤ 1)%nat) ∧
  (h = "meal_times" →
   n = if rules.meal_fires ex meals
       then length (zip_with (rules.meal_param user_id) (as_list meals) news)
       else 0%nat).
Proof.
  intros n. subst n. rewrite !filter_app, !length_app.
  rewrite wake_up_params_for, sleep_params_for, meal_params_for,
    bad_habits_params_for.
  split; [|split].
  - intros Hin.
    destruct (fires_not_pending ex s meals bad h Hin) as (?&?&?&?).
    repeat case_decide; done.
  - intros Hne.
    repeat case_decide; try done; try lia; exfalso; intuition congruence.
  - intros ->. destruct (rules.meal_fires ex meals);
      repeat case_decide; try done; try lia; exfalso;
      solve [intuition discriminate].
Qed.

(** Every call of the rule engine either leaves the store as it was and
    proposes nothing, or answers as [adjust_habits_answers] says. *)
Lemma adjust_habits_cases up today db user_id :
  let ex : gset string := list_to_set (sql.pending_habits user_id db) in
  let out := adjust_habits up today db user_id in
  (store out = db ∧ proposed (reply out) = [] ∧
   Forall (λ d, d = db) (seen out)) ∨
  ∃ w s meals e st bad wk news,
    sql.latest_routine user_id db = Some (w, s, meals, e, st, bad, wk) ∧
    (rules.meal_fires ex meals = false ∨
     Forall2 (λ time new_time, shifted time = Some new_time)
       (as_list meals) news) ∧
    let params :=
      rules.wake_up_params user_id ex w s ++ rules.sleep_params user_id ex s ++
      rules.meal_params user_id ex meals news ++
      rules.bad_habits_params user_id ex bad in
    out =
    {| reply := Adjustments
         (rules.wake_up_proposals ex w s ++ rules.sleep_proposals ex s ++
          rules.meal_proposals ex meals news ++
          rules.bad_habits_proposals ex bad);
       store := inserted today params db;
       seen := replicate (2 + length params) db ++
               [inserted today params db] |}.
Proof.
  intros ex out. subst out. destruct up; [|left; by repeat constructor].
  destruct (sql.latest_routine user_id db)
    as [[[[[[[w s] meals] e] st] bad] wk]|] eqn:E.
  - destruct (rules.meal_fires ex meals) eqn:Hf.
    + destruct (decide (Forall (λ time, is_Some (shifted time))
                          (as_list meals))) as [Hw|Hw].
      * destruct (well_formed_news meals Hw) as [news Hn].
        right. exists w, s, meals, e, st, bad, wk, news.
        split; [done|]. split; [by right|].
        apply (adjust_habits_answers today db user_id w s meals e st bad wk
                 news E). by right.
      * destruct (adjust_habits_raises today db user_id _ _ _ _ _ _ _ E Hf Hw)
          as [n ->].
        left. repeat split. cbn [seen]. by apply Forall_replicate.
    + right. exists w, s, meals, e, st, bad, wk, [].
      split; [done|]. split; [by left|].
      apply (adjust_habits_answers today db user_id w s meals e st bad wk
               [] E). by left.
  - rewrite (adjust_habits_no_routine _ _ _ E).
    left. by repeat constructor.
Qed.

(** ** C1: pending records per habit name *)

(** C1, as stated, fails: from a store without any pending record, one
    call of the rule engine on a routine with three meal times leaves
    three pending records named "meal_times" for the user. *)
Lemma adjust_habits_breaks_one_pending_per_habit :
  one_pending_per_habit sample.fresh 1 ∧
  ¬ one_pending_per_habit
      (store (adjust_habits true sample.today sample.fresh 1)) 1.
Proof.
  split.
  - intros h. simpl. lia.
  - intros H. specialize (H "meal_times"). vm_compute in H. lia.
Qed.

(** C1 (amended): starting from a store with at most one pending record
    per habit name for the user, after one call of the rule engine
    (1) every habit name other than "meal_times" still has at most one
    pending record, (2) a habit name that had a pending record has the very
    same pending records: the rule of a pending habit is skipped, and
    (3) the pending "meal_times" records are either unchanged or, when none
    was pending, one per meal time of the latest routine. *)
Theorem adjust_habits_pending_per_habit up today db user_id :
  one_pending_per_habit db user_id →
  let db' := store (adjust_habits up today db user_id) in
  (∀ h, h ≠ "meal_times" → (length (pending_of user_id h db') ≤ 1)%nat) ∧
  (∀ h, pending_of user_id h db ≠ [] →
        pending_of user_id h db' = pending_of user_id h db) ∧
  (pending_of user_id "meal_times" db' = pending_of user_id "meal_times" db ∨
   ∃ w s l e st bad wk,
     sql.latest_routine user_id db = Some (w, s, Some l, e, st, bad, wk) ∧
     pending_of user_id "meal_times" db = [] ∧
     length (pending_of user_id "meal_times" db') = length l).
Proof.
  intros Hinv db'. subst db'.
  destruct (adjust_habits_cases up today db user_id)
    as [(-> & _ & _)|(w & s & meals & e & st & bad & wk & news & E & Hm & ->)].
  { split; [intros h _; apply Hinv|]. split; [done|by left]. }
  cbn [store].
  set (ex := list_to_set (sql.pending_habits user_id db) : gset string) in *.
  set (params := _ ++ _ ++ _ ++ _).
  assert (Hnew : ∀ h, ∃ rows,
    pending_of user_id h (inserted today params db) =
    pending_of user_id h db ++ rows ∧
    (h ∈ ex → rows = []) ∧
    (h ≠ "meal_times" → (length rows ≤ 1)%nat) ∧
    (h = "meal_times" →
     length rows =
     if rules.meal_fires ex meals
     then length (zip_with (rules.meal_param user_id) (as_list meals) news)
     else 0%nat)).
  { intros h.
    destruct (pending_of_inserted today user_id h params db)
      as (rows & Hrows & Hlen).
    destruct (params_for_habit user_id ex w s meals news bad h)
      as (H1 & H2 & H3).
    fold params in H1, H2, H3. rewrite <- Hlen in H1, H2, H3.
    exists rows. split; [done|]. split; [|done].
    intros Hin. apply nil_length_inv. auto. }
  split; [|split].
  - intros h Hne. destruct (Hnew h) as (rows & -> & Hex & Hle & _).
    destruct (pending_of user_id h db) as [|a l] eqn:Hp.
    + simpl. auto.
    + rewrite Hex, app_nil_r; [rewrite <- Hp; apply Hinv|].
      apply pending_habits_spec. by rewrite Hp.
  - intros h Hp. destruct (Hnew h) as (rows & -> & Hex & _).
    rewrite Hex, app_nil_r; [done|]. by apply pending_habits_spec.
  - destruct (Hnew "meal_times") as (rows & -> & Hex & _ & Hlen).
    specialize (Hlen eq_refl).
    destruct (rules.meal_fires ex meals) eqn:Hf.
    + right. unfold rules.meal_fires in Hf.
      apply andb_prop in Hf as [Hf Hl].
      apply bool_decide_eq_true in Hf.
      destruct meals as [l|]; [|done].
      exists w, s, l, e, st, bad, wk. split; [done|].
      assert (Hp : pending_of user_id "meal_times" db = []).
      { destruct (pending_of user_id "meal_times" db) eqn:Hp; [done|].
        destruct Hf. apply pending_habits_spec. by rewrite Hp. }
      split; [done|]. rewrite Hp. simpl. rewrite Hlen.
      destruct Hm as [Hm|Hm].
      * done.
      * rewrite length_zip_with. simpl in *.
        rewrite <- (Forall2_length _ _ _ Hm). lia.
    + left. apply nil_length_inv in Hlen. by rewrite Hlen, app_nil_r.
Qed.

(** The amended C1 at the sample store, where nothing is pending before
    the call: afterwards one wake-up record is pending. *)
Lemma adjust_habits_pending_per_habit_sample :
  one_pending_per_habit sample.fresh 1 ∧
  (length (pending_of 1 "wake_up_time" sample.proposed_once) ≤ 1)%nat.
Proof.
  assert (H : one_pending_per_habit sample.fresh 1).
  { intros h. simpl. lia. }
  split; [exact H|].
  by apply (proj1 (adjust_habits_pending_per_habit true sample.today
                     sample.fresh 1 H)).
Defined.

(** ** C8: no routine, no data *)

Lemma filter_none {A} (P : A → Prop) `{∀ x, Decision (P x)} (l : list A) :
  (∀ x, x ∈ l → ¬ P x) → filter P l = [].
Proof.
  intros Hl. destruct (filter P l) as [|a k] eqn:E; [done|].
  assert (Ha : a ∈ filter P l) by (rewrite E; left).
  apply list_elem_of_filter in Ha as [HP Ha]. by destruct (Hl a Ha).
Qed.

Lemma latest_routine_None user_id db :
  (∀ r, r ∈ routines db → daily_routines.user_id r ≠ user_id) →
  sql.latest_routine user_id db = None.
Proof.
  intros H. unfold sql.latest_routine. by rewrite filter_none.
Qed.

(** C8: for a user without any stored routine the rule engine answers with
    the "no data" message, which is not the empty proposal list, and it
    leaves the store as it was. *)
Theorem adjust_habits_no_data today db user_id :
  (∀ r, r ∈ routines db → daily_routines.user_id r ≠ user_id) →
  let out := adjust_habits true today db user_id in
  reply out = Message no_routine ∧
  reply out ≠ Adjustments [] ∧
  store out = db.
Proof.
  intros H out. subst out.
  rewrite (adjust_habits_no_routine _ _ _ (latest_routine_None _ _ H)).
  by repeat split.
Qed.

(** C8 at the sample store: user 3 has no routine; user 1, once every
    proposal is pending, gets the empty list instead. *)
Lemma adjust_habits_no_data_sample :
  reply (adjust_habits true sample.today sample.fresh 3) = Message no_routine ∧
  reply (adjust_habits true sample.today sample.proposed_once 1) =
  Adjustments [].
Proof.
  split.
  - apply (adjust_habits_no_data sample.today sample.fresh 3).
    intros r Hr. apply list_elem_of_singleton in Hr as ->. done.
  - vm_compute. reflexivity.
Defined.

(** ** Rows and proposals of one call *)

Lemma inserted_row today ps db p :
  p ∈ ps →
  ∃ id, sql.pending_row today id p ∈ adjustments (inserted today ps db).
Proof.
  intros Hp. apply list_elem_of_lookup in Hp as [i Hi].
  exists (adjustment_id_seq db + Z.of_nat i).
  rewrite inserted_adjustments. apply elem_of_app. right.
  by apply (elem_of_lookup_imap_2
              (λ i p, sql.pending_row today
                        (adjustment_id_seq db + Z.of_nat i) p)).
Qed.

Lemma inserted_row_inv today ps db a :
  a ∈ adjustments (inserted today ps db) →
  a ∈ adjustments db ∨ ∃ id p, p ∈ ps ∧ a = sql.pending_row today id p.
Proof.
  rewrite inserted_adjustments.
  intros [Ha|Ha]%elem_of_app; [by left|right].
  apply elem_of_lookup_imap_1 in Ha as (i & p & -> & Hp).
  exists (adjustment_id_seq db + Z.of_nat i), p. split; [|done].
  apply list_elem_of_lookup. by exists i.
Qed.

(** Each proposal of an answer comes from the rule named by its habit, and
    that rule fired. *)
Lemma proposal_of_rule (ex : gset string) w s meals news bad p :
  p ∈ rules.wake_up_proposals ex w s ++ rules.sleep_proposals ex s ++
      rules.meal_proposals ex meals news ++
      rules.bad_habits_proposals ex bad →
  (rules.wake_up_fires ex s = true ∧
   p = adjustment.mk "wake_up_time"
         (adjustment.Str (rules.new_wake_time w))) ∨
  (rules.sleep_fires ex s = true ∧
   p = adjustment.mk "sleep_time"
         (adjustment.Str (rules.new_sleep_time s))) ∨
  (rules.meal_fires ex meals = true ∧
   p = adjustment.mk "meal_times" (adjustment.StrList news)) ∨
  (rules.bad_habits_fires ex bad = true ∧
   p = adjustment.mk "bad_habits"
         (adjustment.StrList (Py.slice_to_minus_1 (as_list bad)))).
Proof.
  unfold rules.wake_up_proposals, rules.sleep_proposals,
    rules.meal_proposals, rules.bad_habits_proposals.
  rewrite !elem_of_app.
  destruct (rules.wake_up_fires ex s), (rules.sleep_fires ex s),
    (rules.meal_fires ex meals), (rules.bad_habits_fires ex bad);
    rewrite ?list_elem_of_singleton, ?elem_of_nil; intuition auto.
Qed.

(** Likewise for the parameters of the INSERTs. *)
Lemma param_of_rule user_id (ex : gset string) w s meals news bad p :
  p ∈ rules.wake_up_params user_id ex w s ++
      rules.sleep_params user_id ex s ++
      rules.meal_params user_id ex meals news ++
      rules.bad_habits_params user_id ex bad →
  (rules.wake_up_fires ex s = true ∧ p.2 = "wake_up_time") ∨
  (rules.sleep_fires ex s = true ∧ p.2 = "sleep_time") ∨
  (rules.meal_fires ex meals = true ∧ p.2 = "meal_times") ∨
  (rules.bad_habits_fires ex bad = true ∧ p.2 = "bad_habits").
Proof.
  unfold rules.wake_up_params, rules.sleep_params,
    rules.meal_params, rules.bad_habits_params.
  rewrite !elem_of_app.
  assert (Hzip : p ∈ zip_with (rules.meal_param user_id) (as_list meals) news
                 → p.2 = "meal_times").
  { generalize (as_list meals). intros l. revert news.
    induction l as [|t l IH]; intros [|n news]; cbn [zip_with];
      rewrite ?elem_of_nil, ?elem_of_cons; try done.
    intros [->|H]; [done|]. by apply (IH news). }
  destruct (rules.wake_up_fires ex s), (rules.sleep_fires ex s),
    (rules.meal_fires ex meals), (rules.bad_habits_fires ex bad);
    rewrite ?list_elem_of_singleton, ?elem_of_nil;
    intuition (subst; auto).
Qed.

Lemma late_sleep_fires (ex : gset string) s :
  datetime.hour s > 1 →
  rules.wake_up_fires ex s = bool_decide ("wake_up_time" ∉ ex) ∧
  rules.sleep_fires ex s = bool_decide ("sleep_time" ∉ ex).
Proof.
  intros H. unfold rules.wake_up_fires, rules.sleep_fires.
  assert ((datetime.hour s >? 1) = true) as -> by (apply Z.gtb_gt; lia).
  by rewrite !andb_true_r.
Qed.

Lemma early_sleep_skips (ex : gset string) s :
  datetime.hour s ≤ 1 →
  rules.wake_up_fires ex s = false ∧ rules.sleep_fires ex s = false.
Proof.
  intros H. unfold rules.wake_up_fires, rules.sleep_fires.
  assert ((datetime.hour s >? 1) = false) as ->.
  { rewrite Z.gtb_ltb. apply Z.ltb_ge. lia. }
  by rewrite !andb_false_r.
Qed.

Lemma not_pending_not_in user_id db h :
  pending_of user_id h db = [] →
  h ∉ (list_to_set (sql.pending_habits user_id db) : gset string).
Proof. intros H Hin. by apply pending_habits_spec in Hin. Qed.

(** ** C5: the wake-up and sleep shifts *)

(** C5: when the sleep hour is above 1, a habit without pending record
    gets its proposal: the wake-up proposal suggests hour
    [max 6 (wake hour - 1)] with the minute of the wake time and is stored
    with reason "Gradual wake-up shift"; the sleep proposal suggests hour
    [max 22 (sleep hour - 1)] with the minute of the sleep time and is
    stored with reason "Improve sleep quality".  For sleep hour 3 and wake
    hour 7 the suggestions read 06:mm and 22:mm. *)
Theorem wake_and_sleep_shift today db user_id w s meals e st bad wk :
  sql.latest_routine user_id db = Some (w, s, meals, e, st, bad, wk) →
  well_formed meals →
  datetime.hour s > 1 →
  let out := adjust_habits true today db user_id in
  let new_wake := hh_mm (Z.max 6 (datetime.hour w - 1)) (datetime.minute w) in
  let new_sleep :=
    hh_mm (Z.max 22 (datetime.hour s - 1)) (datetime.minute s) in
  (pending_of user_id "wake_up_time" db = [] →
   adjustment.mk "wake_up_time" (adjustment.Str new_wake)
     ∈ proposed (reply out) ∧
   (∀ p, p ∈ proposed (reply out) → adjustment.habit p = "wake_up_time" →
         adjustment.suggested_change p = adjustment.Str new_wake) ∧
   ∃ id, sql.pending_row today id
           (user_id, VTime w, VText new_wake, "Gradual wake-up shift",
            "wake_up_time") ∈ adjustments (store out)) ∧
  (pending_of user_id "sleep_time" db = [] →
   adjustment.mk "sleep_time" (adjustment.Str new_sleep)
     ∈ proposed (reply out) ∧
   (∀ p, p ∈ proposed (reply out) → adjustment.habit p = "sleep_time" →
         adjustment.suggested_change p = adjustment.Str new_sleep) ∧
   ∃ id, sql.pending_row today id
           (user_id, VTime s, VText new_sleep, "Improve sleep quality",
            "sleep_time") ∈ adjustments (store out)) ∧
  (datetime.hour s = 3 → datetime.hour w = 7 →
   new_wake = "06:" +:+ Py.format_0d 2 (datetime.minute w) ∧
   new_sleep = "22:" +:+ Py.format_0d 2 (datetime.minute s)).
Proof.
  intros E Hw Hs out new_wake new_sleep. subst out.
  destruct (well_formed_news meals Hw) as [news Hn].
  rewrite (adjust_habits_answers today db user_id w s meals e st bad wk news E
             (or_intror Hn)).
  cbn [reply store proposed].
  set (ex := list_to_set (sql.pending_habits user_id db) : gset string).
  destruct (late_sleep_fires ex s Hs) as [Hfw Hfs].
  assert (Hother : ∀ p h,
    p ∈ rules.wake_up_proposals ex w s ++ rules.sleep_proposals ex s ++
        rules.meal_proposals ex meals news ++
        rules.bad_habits_proposals ex bad →
    adjustment.habit p = h →
    (h = "wake_up_time" →
     adjustment.suggested_change p = adjustment.Str new_wake) ∧
    (h = "sleep_time" →
     adjustment.suggested_change p = adjustment.Str new_sleep)).
  { intros p h Hp <-.
    destruct (proposal_of_rule ex w s meals news bad p Hp)
      as [[_ ->]|[[_ ->]|[[_ ->]|[_ ->]]]]; by split. }
  split; [|split].
  - intros Hp. apply (not_pending_not_in user_id db) in Hp.
    fold ex in Hp. rewrite bool_decide_eq_true_2 in Hfw by done.
    split; [|split].
    + apply elem_of_app. left. unfold rules.wake_up_proposals.
      rewrite Hfw. by left.
    + intros p Hin Hh. by apply (Hother p _ Hin Hh).
    + apply inserted_row. apply elem_of_app. left.
      unfold rules.wake_up_params. rewrite Hfw. by left.
  - intros Hp. apply (not_pending_not_in user_id db) in Hp.
    fold ex in Hp. rewrite bool_decide_eq_true_2 in Hfs by done.
    split; [|split].
    + apply elem_of_app. right. apply elem_of_app. left.
      unfold rules.sleep_proposals. rewrite Hfs. by left.
    + intros p Hin Hh. by apply (Hother p _ Hin Hh).
    + apply inserted_row. apply elem_of_app. right. apply elem_of_app. left.
      unfold rules.sleep_params. rewrite Hfs. by left.
  - intros H3 H7. subst new_wake new_sleep. rewrite H3, H7. by split.
Qed.

(** C5 at the sample store: user 1 slept at 03:15 and woke at 07:00. *)
Lemma wake_and_sleep_shift_sample :
  adjustment.mk "wake_up_time" (adjustment.Str "06:00")
    ∈ proposed (reply (adjust_habits true sample.today sample.fresh 1)) ∧
  adjustment.mk "sleep_time" (adjustment.Str "22:15")
    ∈ proposed (reply (adjust_habits true sample.today sample.fresh 1)).
Proof.
  assert (Hw : well_formed (Some ["07:00"; "12:30"; "19:00"])).
  { repeat constructor; by eexists. }
  assert (Hs : datetime.hour (datetime.mkTime 3 15 0 0) > 1) by (simpl; lia).
  pose proof (wake_and_sleep_shift sample.today sample.fresh 1
                (datetime.mkTime 7 0 0 0) (datetime.mkTime 3 15 0 0)
                (Some ["07:00"; "12:30"; "19:00"]) 5 6
                (Some ["coffee"; "sugar"; "lateNight"]) "15-minute walk"
                eq_refl Hw Hs) as (H1 & H2 & _).
  split; [apply (H1 eq_refl)|apply (H2 eq_refl)].
Defined.

(** ** C6: no wake-up or sleep proposal for an early sleeper *)

(** C6: when the sleep hour of the latest routine is at most 1, whatever
    the other fields and the pending set, a call carries no proposal named
    "wake_up_time" or "sleep_time", and every row of the adjustment table
    with one of these names was there before the call. *)
Theorem no_shift_for_early_sleep up today db user_id w s meals e st bad wk :
  sql.latest_routine user_id db = Some (w, s, meals, e, st, bad, wk) →
  datetime.hour s ≤ 1 →
  let out := adjust_habits up today db user_id in
  (∀ p, p ∈ proposed (reply out) →
        adjustment.habit p ≠ "wake_up_time" ∧
        adjustment.habit p ≠ "sleep_time") ∧
  (∀ a, a ∈ adjustments (store out) →
        habit_adjustments.habit a = "wake_up_time" ∨
        habit_adjustments.habit a = "sleep_time" →
        a ∈ adjustments db).
Proof.
  intros E Hs out. subst out.
  destruct (adjust_habits_cases up today db user_id)
    as [(-> & -> & _)|(w' & s' & meals' & e' & st' & bad' & wk' & news & E' &
                        _ & ->)].
  { split; [|done]. intros p Hp. by apply elem_of_nil in Hp. }
  rewrite E in E'. injection E' as <- <- <- <- <- <- <-.
  cbn [reply store proposed].
  set (ex := list_to_set (sql.pending_habits user_id db) : gset string).
  destruct (early_sleep_skips ex s Hs) as [Hfw Hfs].
  split.
  - intros p Hp.
    destruct (proposal_of_rule ex w s meals news bad p Hp)
      as [[Hf _]|[[Hf _]|[[_ ->]|[_ ->]]]]; try congruence; by split.
  - intros a Ha Hh.
    apply inserted_row_inv in Ha as [Ha|(id & p & Hp & ->)]; [done|].
    exfalso.
    assert (Hhabit : habit_adjustments.habit (sql.pending_row today id p) = p.2)
      by (by destruct p as [[[[? ?] ?] ?] ?]).
    rewrite Hhabit in Hh.
    destruct (param_of_rule user_id ex w s meals news bad p Hp)
      as [[Hf _]|[[Hf _]|[[_ Hm]|[_ Hb]]]]; try congruence;
      destruct Hh as [Hh|Hh]; rewrite Hh in *; discriminate.
Qed.

(** C6 at a store where user 2 went to bed at 00:30 with nothing
    pending: the one proposal of the answer is the meal proposal. *)
Lemma no_shift_for_early_sleep_sample :
  datetime.hour (datetime.mkTime 0 30 0 0) ≤ 1 ∧
  adjustment.habit (adjustment.mk "meal_times" (adjustment.StrList []))
    ≠ "wake_up_time" ∧
  adjustment.habit (adjustment.mk "meal_times" (adjustment.StrList []))
    ≠ "sleep_time".
Proof.
  assert (Hs : datetime.hour (datetime.mkTime 0 30 0 0) ≤ 1) by (simpl; lia).
  split; [exact Hs|].
  apply (proj1 (no_shift_for_early_sleep true sample.today sample.no_meals 2
                  (datetime.mkTime 8 0 0 0) (datetime.mkTime 0 30 0 0)
                  (Some []) 3 3 (Some []) "" eq_refl Hs)).
  vm_compute. by left.
Defined.

(** ** C7: the bad-habit reduction *)

Lemma slice_to_minus_1_snoc {A} (l : list A) (x : A) :
  Py.slice_to_minus_1 (l ++ [x]) = l.
Proof.
  unfold Py.slice_to_minus_1. apply take_app_length'.
  rewrite length_app. simpl. lia.
Qed.

(** [l[:-1]] of a non-empty list is the list without its last element. *)
Lemma slice_to_minus_1_last {A} (l : list A) :
  l ≠ [] → ∃ x, l = Py.slice_to_minus_1 l ++ [x].
Proof.
  induction l as [|x l _] using rev_ind; [done|]. intros _.
  exists x. by rewrite slice_to_minus_1_snoc.
Qed.

Lemma bad_habits_fires_spec (ex : gset string) bad :
  rules.bad_habits_fires ex bad = true ↔
  ("bad_habits" ∉ ex) ∧ ∃ l, bad = Some l ∧ l ≠ [].
Proof.
  unfold rules.bad_habits_fires. rewrite !andb_true_iff, bool_decide_eq_true.
  split.
  - intros [[Hex _] Ht]. split; [done|].
    destruct bad as [[|x l]|]; try done. by exists (x :: l).
  - intros [Hex (l & -> & Hl)]. destruct l; done.
Qed.

(** C7: in an answer of the rule engine there is a proposal named
    "bad_habits" exactly when no "bad_habits" record is pending and the
    bad-habits list of the routine is not empty; the proposal is then the
    list without its last element, and the record stored for it carries
    the reason "Reduce negative habits". *)
Theorem bad_habit_reduction today db user_id w s meals e st bad wk :
  sql.latest_routine user_id db = Some (w, s, meals, e, st, bad, wk) →
  well_formed meals →
  let out := adjust_habits true today db user_id in
  ((∃ p, p ∈ proposed (reply out) ∧ adjustment.habit p = "bad_habits") ↔
   (pending_of user_id "bad_habits" db = [] ∧ ∃ l, bad = Some l ∧ l ≠ [])) ∧
  (∀ l, bad = Some l → l ≠ [] → pending_of user_id "bad_habits" db = [] →
   let reduced := Py.slice_to_minus_1 l in
   (∃ x, l = reduced ++ [x]) ∧
   adjustment.mk "bad_habits" (adjustment.StrList reduced)
     ∈ proposed (reply out) ∧
   (∀ p, p ∈ proposed (reply out) → adjustment.habit p = "bad_habits" →
         adjustment.suggested_change p = adjustment.StrList reduced) ∧
   ∃ id, sql.pending_row today id
           (user_id, VText (Py.str_list l), VText (Py.str_list reduced),
            "Reduce negative habits", "bad_habits")
           ∈ adjustments (store out)).
Proof.
  intros E Hw out. subst out.
  destruct (well_formed_news meals Hw) as [news Hn].
  rewrite (adjust_habits_answers today db user_id w s meals e st bad wk news E
             (or_intror Hn)).
  cbn [reply store proposed].
  set (ex := list_to_set (sql.pending_habits user_id db) : gset string).
  assert (Hpend : pending_of user_id "bad_habits" db = [] ↔ "bad_habits" ∉ ex).
  { split; [apply not_pending_not_in|]. intros Hex.
    destruct (pending_of user_id "bad_habits" db) eqn:Hp; [done|].
    destruct Hex. apply pending_habits_spec. by rewrite Hp. }
  split.
  - rewrite Hpend, <- bad_habits_fires_spec. split.
    + intros (p & Hp & Hh).
      destruct (proposal_of_rule ex w s meals news bad p Hp)
        as [[_ ->]|[[_ ->]|[[_ ->]|[Hf _]]]]; done.
    + intros Hf.
      exists (adjustment.mk "bad_habits"
                (adjustment.StrList (Py.slice_to_minus_1 (as_list bad)))).
      split; [|reflexivity].
      rewrite !elem_of_app. do 3 right.
      unfold rules.bad_habits_proposals. rewrite Hf. by left.
  - intros l -> Hl Hp.
    assert (Hf : rules.bad_habits_fires ex (Some l) = true).
    { apply bad_habits_fires_spec. split; [by apply Hpend|by exists l]. }
    split; [by apply slice_to_minus_1_last|]. split; [|split].
    + rewrite !elem_of_app. do 3 right.
      unfold rules.bad_habits_proposals. rewrite Hf. by left.
    + intros p Hin Hh.
      destruct (proposal_of_rule ex w s meals news (Some l) p Hin)
        as [[_ ->]|[[_ ->]|[[_ ->]|[_ ->]]]]; done.
    + apply inserted_row. rewrite !elem_of_app. do 3 right.
      unfold rules.bad_habits_params. rewrite Hf. by left.
Qed.

(** C7 at the sample store: ["coffee"; "sugar"; "lateNight"] is proposed
    as ["coffee"; "sugar"]. *)
Lemma bad_habit_reduction_sample :
  adjustment.mk "bad_habits" (adjustment.StrList ["coffee"; "sugar"])
    ∈ proposed (reply (adjust_habits true sample.today sample.fresh 1)).
Proof.
  assert (Hw : well_formed (Some ["07:00"; "12:30"; "19:00"])).
  { repeat constructor; by eexists. }
  pose proof (bad_habit_reduction sample.today sample.fresh 1
                (datetime.mkTime 7 0 0 0) (datetime.mkTime 3 15 0 0)
                (Some ["07:00"; "12:30"; "19:00"]) 5 6
                (Some ["coffee"; "sugar"; "lateNight"]) "15-minute walk"
                eq_refl Hw) as [_ H].
  destruct (H ["coffee"; "sugar"; "lateNight"] eq_refl) as (_ & Hin & _);
    [done|done|].
  exact Hin.
Defined.

(** ** C2: the meal retiming *)

(** On a clock time written "HH:MM" the loop computes hour
    [max 6 (H - 1)] and keeps the minute. *)
Lemma shifted_hh_mm H M :
  0 ≤ H < 24 → 0 ≤ M < 60 →
  shifted (hh_mm H M) = Some (hh_mm (Z.max 6 (H - 1)) M).
Proof.
  intros HH HM.
  assert (Hall : Forall (λ H, Forall (λ M,
            shifted (hh_mm H M) = Some (hh_mm (Z.max 6 (H - 1)) M))
            (seqZ 0 60)) (seqZ 0 24)).
  { apply (bool_decide_unpack _). vm_compute. exact I. }
  rewrite Forall_forall in Hall.
  specialize (Hall H). rewrite Forall_forall in Hall.
  apply Hall; apply elem_of_seqZ; lia.
Qed.

(** When the meal rule fires on well-formed meal times, the answer holds
    the whole retimed sequence as one proposal and the store one pending
    record per meal time, each with reason "Optimize meal timing". *)
Lemma meal_retiming today db user_id w s l e st bad wk :
  sql.latest_routine user_id db = Some (w, s, Some l, e, st, bad, wk) →
  well_formed (Some l) →
  pending_of user_id "meal_times" db = [] →
  let out := adjust_habits true today db user_id in
  ∃ news,
    Forall2 (λ time new_time, shifted time = Some new_time) l news ∧
    adjustment.mk "meal_times" (adjustment.StrList news)
      ∈ proposed (reply out) ∧
    (∀ time new_time, (time, new_time) ∈ zip l news →
       ∃ id, sql.pending_row today id
               (user_id, VText time, VText new_time, "Optimize meal timing",
                "meal_times") ∈ adjustments (store out)) ∧
    length (pending_of user_id "meal_times" (store out)) = length l.
Proof.
  intros E Hw Hp out. subst out.
  destruct (well_formed_news (Some l) Hw) as [news Hn].
  rewrite (adjust_habits_answers today db user_id w s (Some l) e st bad wk
             news E (or_intror Hn)).
  cbn [reply store proposed].
  set (ex := list_to_set (sql.pending_habits user_id db) : gset string).
  assert (Hf : rules.meal_fires ex (Some l) = true).
  { unfold rules.meal_fires. rewrite andb_true_r.
    apply bool_decide_eq_true. by apply not_pending_not_in. }
  exists news. split; [done|]. split; [|split].
  - rewrite !elem_of_app. right. right. left.
    unfold rules.meal_proposals. rewrite Hf. by left.
  - intros time new_time Hin. apply inserted_row.
    rewrite !elem_of_app. right. right. left.
    unfold rules.meal_params. rewrite Hf. cbn [as_list default].
    rewrite zip_with_zip.
    apply (list_elem_of_fmap_2 (uncurry (rules.meal_param user_id))
             _ (time, new_time) Hin).
  - set (params := _ ++ _ ++ _ ++ _).
    destruct (pending_of_inserted today user_id "meal_times" params db)
      as (rows & -> & Hlen).
    destruct (params_for_habit user_id ex w s (Some l) news bad "meal_times")
      as (_ & _ & H3).
    fold params in H3. rewrite <- Hlen, Hf in H3.
    rewrite Hp. cbn [app]. rewrite (H3 eq_refl), length_zip_with.
    by rewrite <- (Forall2_length _ _ _ Hn), Nat.min_id.
Qed.

(** The example of the specification: three meal times, three records,
    one aggregate proposal. *)
Lemma meal_retiming_sample :
  adjustment.mk "meal_times" (adjustment.StrList ["06:00"; "11:30"; "18:00"])
    ∈ proposed (reply (adjust_habits true sample.today sample.fresh 1)) ∧
  habit_adjustments.next_suggested_value <$>
    pending_of 1 "meal_times" sample.proposed_once =
  [VText "06:00"; VText "11:30"; VText "18:00"].
Proof. split; [|by vm_compute]. vm_compute. do 2 right. by left. Qed.

(** C2, the failing input: the column holds the empty list and nothing is
    pending.  The rule fires all the same: the answer carries a
    "meal_times" proposal with the empty sequence, no record is stored,
    and so the next call proposes it again. *)
Theorem meal_rule_fires_on_empty_list :
  let out := adjust_habits true sample.today sample.no_meals 2 in
  reply out =
    Adjustments [adjustment.mk "meal_times" (adjustment.StrList [])] ∧
  store out = sample.no_meals ∧
  reply (adjust_habits true sample.today (store out) 2) = reply out.
Proof. by vm_compute. Qed.

(** ** C3 and C4: the lifecycle manager *)

Lemma valid_status_passes status :
  status = "accepted" ∨ status = "rejected" ↔
  bool_decide (status ∉ ["accepted"; "rejected"]) = false.
Proof.
  rewrite bool_decide_eq_false. split.
  - intros [->| ->] H; apply H; [by left|right; by left].
  - intros H. destruct (decide (status = "accepted")) as [|Ha]; [by left|].
    destruct (decide (status = "rejected")) as [|Hr]; [by right|].
    destruct H. intros [|[|H]%elem_of_cons]%elem_of_cons; try done.
    by apply elem_of_nil in H.
Qed.

Lemma adjustment_by_id_head id db :
  sql.adjustment_by_id id db =
  (λ a, (habit_adjustments.user_id a, habit_adjustments.habit a,
         habit_adjustments.current_value a,
         habit_adjustments.next_suggested_value a)) <$>
  head (filter (λ a, habit_adjustments.adjustment_id a = id) (adjustments db)).
Proof. reflexivity. Qed.

Section resolve.
Variable today : datetime.date.
Variable db : DB.
Variable key : Z.
Variable status : string.
Hypothesis valid : status = "accepted" ∨ status = "rejected".

(** No adjustment under the key: one SELECT, the error answer, no write. *)
Lemma update_habit_not_found :
  head (filter (λ a, habit_adjustments.adjustment_id a = key)
          (adjustments db)) = None →
  update_habit true today db key status =
  {| reply := Error no_adjustment; store := db; seen := [db] |}.
Proof.
  intros H. unfold update_habit.
  rewrite (proj1 (valid_status_passes status) valid).
  unfold get_db_connection, update_habit_on.
  rewrite run_bind, run_select. cbn [steps working connect id].
  by rewrite adjustment_by_id_head, H.
Qed.

(** An adjustment under the key: SELECT, INSERT into the history, DELETE,
    and one commit that publishes both writes together. *)
Lemma update_habit_found a :
  head (filter (λ a, habit_adjustments.adjustment_id a = key)
          (adjustments db)) = Some a →
  let db' :=
    {| routines := routines db;
       adjustments :=
         filter (λ a', habit_adjustments.adjustment_id a' ≠ key)
           (adjustments db);
       history := history db ++ [archived today status a];
       adjustment_id_seq := adjustment_id_seq db |} in
  update_habit true today db key status =
  {| reply := Message (moved_to_history key status);
     store := db';
     seen := [db; db; db; db'] |}.
Proof.
  intros H db'. unfold update_habit.
  rewrite (proj1 (valid_status_passes status) valid).
  unfold get_db_connection, update_habit_on.
  rewrite run_bind, run_select. cbn [steps working connect id].
  rewrite adjustment_by_id_head, H. cbn [fmap option_fmap option_map].
  destruct valid as [-> | ->]; reflexivity.
Qed.

End resolve.

(** C3: a call with status "accepted" or "rejected".  If no adjustment
    has the given id, the answer is the not-found error and the store is
    untouched.  Otherwise exactly one history entry is appended, carrying
    the given status and the stored previous and new values of the
    adjustment, and the adjustment is deleted; every state of the store a
    reader can observe during the call is the store before the call or
    the store with both writes. *)
Theorem update_habit_resolves today db id status :
  status = "accepted" ∨ status = "rejected" →
  let out := update_habit true today db id status in
  ((∀ a, a ∈ adjustments db → habit_adjustments.adjustment_id a ≠ id) →
   reply out = Error no_adjustment ∧ store out = db ∧
   Forall (λ d, d = db) (seen out)) ∧
  (∀ a, head (filter (λ a, habit_adjustments.adjustment_id a = id)
                (adjustments db)) = Some a →
   reply out = Message (moved_to_history id status) ∧
   history (store out) =
     history db ++
     [ {| habit_history.user_id := habit_adjustments.user_id a;
          habit_history.habit := habit_adjustments.habit a;
          habit_history.previous_value := habit_adjustments.current_value a;
          habit_history.new_value :=
            habit_adjustments.next_suggested_value a;
          habit_history.status := status;
          habit_history.date_applied := today |} ] ∧
   (∀ a', a' ∈ adjustments (store out) ↔
          a' ∈ adjustments db ∧ habit_adjustments.adjustment_id a' ≠ id) ∧
   routines (store out) = routines db ∧
   Forall (λ d, d = db ∨ d = store out) (seen out)) ∧
  ((∃ a, a ∈ adjustments db ∧ habit_adjustments.adjustment_id a = id) →
   ∃ a, head (filter (λ a, habit_adjustments.adjustment_id a = id)
                (adjustments db)) = Some a).
Proof.
  intros Hv out. subst out. split; [|split].
  - intros Hnone.
    rewrite (update_habit_not_found today db id status Hv).
    + by repeat constructor.
    + by rewrite filter_none.
  - intros a Ha.
    rewrite (update_habit_found today db id status Hv a Ha).
    cbn [reply store seen history adjustments routines].
    split; [done|]. split; [done|]. split; [|split; [done|]].
    + intros a'. rewrite list_elem_of_filter. tauto.
    + repeat apply Forall_cons_2; try apply Forall_nil_2;
        first [by left | by right].
  - intros (a & Ha & Hid).
    destruct (filter _ (adjustments db)) as [|a' l] eqn:E; [|by exists a'].
    assert (Hin : a ∈ filter (λ a, habit_adjustments.adjustment_id a = id)
                        (adjustments db))
      by (by apply list_elem_of_filter).
    rewrite E in Hin. by apply elem_of_nil in Hin.
Qed.

(** C3 at the sample store after one call of the rule engine: the sleep
    proposal has key 2; accepting it appends its history entry and removes
    it, and unknown key 22 is answered with the error. *)
Lemma update_habit_resolves_sample :
  reply (update_habit true sample.today sample.proposed_once 2 "accepted") =
    Message "✅ Habit adjustment 2 marked as accepted and moved to history." ∧
  reply (update_habit true sample.today sample.proposed_once 22 "rejected") =
    Error no_adjustment.
Proof.
  split.
  - pose proof (update_habit_resolves sample.today sample.proposed_once 2
                  "accepted" (or_introl eq_refl)) as (_ & H & _).
    destruct (H _ eq_refl) as [Hr _]. exact Hr.
  - pose proof (update_habit_resolves sample.today sample.proposed_once 22
                  "rejected" (or_intror eq_refl)) as (H & _ & _).
    apply H. intros a Ha Hid. vm_compute in Ha.
    repeat (apply elem_of_cons in Ha as [->|Ha]; [discriminate Hid|]).
    by apply elem_of_nil in Ha.
Defined.

(** C4: the call fails with the HTTP 400 error exactly when the status is
    neither "accepted" nor "rejected", and then nothing is read from or
    written to the store: it is left as it was and no statement ran. *)
Theorem update_habit_invalid_status up today db id status :
  let out := update_habit up today db id status in
  ((∃ code detail, reply out = Exception (HTTPException code detail)) ↔
   status ≠ "accepted" ∧ status ≠ "rejected") ∧
  (status ≠ "accepted" ∧ status ≠ "rejected" →
   reply out = Exception (HTTPException 400 invalid_status) ∧
   store out = db ∧ seen out = []).
Proof.
  intros out. subst out.
  assert (Hbad : status ≠ "accepted" ∧ status ≠ "rejected" →
                 update_habit up today db id status =
                 {| reply := Exception (HTTPException 400 invalid_status);
                    store := db; seen := [] |}).
  { intros [Ha Hr]. unfold update_habit.
    rewrite bool_decide_eq_true_2; [done|].
    intros [|[|H]%elem_of_cons]%elem_of_cons; try done.
    by apply elem_of_nil in H. }
  split; [split|].
  - intros (code & detail & Hrep).
    destruct (decide (status = "accepted")) as [Ha|Ha];
      destruct (decide (status = "rejected")) as [Hr|Hr]; try done;
      exfalso.
    all: assert (Hv : status = "accepted" ∨ status = "rejected") by auto.
    all: destruct up; [|unfold update_habit in Hrep;
      rewrite (proj1 (valid_status_passes status) Hv) in Hrep; done].
    all: destruct (head (filter
           (λ a, habit_adjustments.adjustment_id a = id) (adjustments db)))
           as [a|] eqn:E;
      [ rewrite (update_habit_found today db id status Hv a E) in Hrep
      | rewrite (update_habit_not_found today db id status Hv E) in Hrep ];
      done.
  - intros H. rewrite (Hbad H). by eexists _, _.
  - intros H. by rewrite (Hbad H).
Qed.

(** C4 at the sample store: status "maybe" is refused and the pending
    sleep proposal under key 2 stays where it is. *)
Lemma update_habit_invalid_status_sample :
  reply (update_habit true sample.today sample.proposed_once 2 "maybe") =
    Exception (HTTPException 400 invalid_status) ∧
  store (update_habit true sample.today sample.proposed_once 2 "maybe") =
    sample.proposed_once.
Proof.
  destruct (proj2 (update_habit_invalid_status true sample.today
                     sample.proposed_once 2 "maybe"))
    as (Hr & Hs & _); [by split|].
  by split.
Defined.

(** ** C10: the buckets of the progress report *)

Lemma date_le_total : Total datetime.date_le.
Proof. intros a b. unfold datetime.date_le. lia. Qed.

Lemma foldl_progress_step (l : list habit_adjustments.row) A P R :
  foldl progress_step (A, P, R)
    ((λ a, (habit_adjustments.habit a, habit_adjustments.current_value a,
            habit_adjustments.next_suggested_value a,
            habit_adjustments.status a, habit_adjustments.applied_on a))
       <$> l) =
  (A ++ (entry_of <$>
           filter (λ a, habit_adjustments.status a = "accepted") l),
   P ++ (entry_of <$>
           filter (λ a, habit_adjustments.status a = "pending") l),
   R ++ (entry_of <$>
           filter (λ a, habit_adjustments.status a ≠ "accepted" ∧
                        habit_adjustments.status a ≠ "pending") l)).
Proof.
  revert A P R. induction l as [|a l IH]; intros A P R.
  - simpl. by rewrite !app_nil_r.
  - cbn [fmap list_fmap foldl progress_step]. rewrite !filter_cons.
    fold (entry_of a).
    destruct (decide (habit_adjustments.status a = "accepted")) as [Ha|Ha].
    + rewrite bool_decide_eq_true_2 by done.
      rewrite decide_False by (rewrite Ha; done).
      rewrite decide_False by tauto.
      change (list_fmap _ _ ?f ?l) with (f <$> l). rewrite IH.
      by rewrite fmap_cons, <- app_assoc.
    + rewrite bool_decide_eq_false_2 by done.
      destruct (decide (habit_adjustments.status a = "pending")) as [Hp|Hp].
      * rewrite bool_decide_eq_true_2 by done.
        rewrite decide_False by tauto.
        change (list_fmap _ _ ?f ?l) with (f <$> l). rewrite IH.
        by rewrite fmap_cons, <- app_assoc.
      * rewrite bool_decide_eq_false_2 by done.
        rewrite decide_True by done.
        change (list_fmap _ _ ?f ?l) with (f <$> l). rewrite IH.
        by rewrite fmap_cons, <- app_assoc.
Qed.

(** C10: an adjustment of the user whose stored status is neither
    "accepted" nor "pending" is reported in the "rejected" list, which
    holds every row with such a status, in the order of the report; the
    other two lists hold the rows of their status. *)
Theorem progress_rejected_is_catch_all db user_id a :
  a ∈ adjustments db →
  habit_adjustments.user_id a = user_id →
  habit_adjustments.status a ≠ "accepted" →
  habit_adjustments.status a ≠ "pending" →
  let rows := sql.adjustment_rows user_id db in
  ∃ accepted pending rejected,
    reply (habit_progress true db user_id) =
      Progress accepted pending rejected ∧
    entry_of a ∈ rejected ∧
    rejected =
      entry_of <$>
      filter (λ a, habit_adjustments.status a ≠ "accepted" ∧
                   habit_adjustments.status a ≠ "pending") rows ∧
    accepted =
      entry_of <$>
      filter (λ a, habit_adjustments.status a = "accepted") rows ∧
    pending =
      entry_of <$>
      filter (λ a, habit_adjustments.status a = "pending") rows.
Proof.
  intros Hin Hu Ha Hp rows.
  assert (Hrow : a ∈ rows).
  { unfold rows, sql.adjustment_rows. rewrite merge_sort_Permutation.
    by apply list_elem_of_filter. }
  do 3 eexists. split; [|split; [|by repeat split]].
  - unfold habit_progress, get_db_connection, habit_progress_on, finish.
    rewrite run_bind, run_select. cbn [steps working connect id fst snd].
    unfold sql.adjustments_of. fold rows.
    destruct (_ <$> rows) as [|t ts] eqn:E.
    + apply fmap_nil_inv in E. rewrite E in Hrow.
      by apply elem_of_nil in Hrow.
    + rewrite <- E, foldl_progress_step. reflexivity.
  - apply list_elem_of_fmap_2. by apply list_elem_of_filter.
Qed.

(** C10 at a store holding one adjustment with status "expired". *)
Lemma progress_rejected_is_catch_all_sample :
  reply (habit_progress true sample.with_expired 1) =
  Progress [] []
    [ {| entry.habit := "sleep_time"; entry.previous_value := VText "23:30";
         entry.new_value := VText "22:30"; entry.date := "2025-01-31" |} ].
Proof.
  destruct (progress_rejected_is_catch_all sample.with_expired 1
              sample.expired)
    as (acc & pend & rej & Hr & _ & -> & -> & ->);
    [by left|done|done|done|].
  exact Hr.
Defined.

(** ** C9: the projections *)

Section first_seen.

Lemma first_seen_elem (l : list string) x : x ∈ first_seen l ↔ x ∈ l.
Proof.
  induction l as [|h l IH]; [done|]. cbn [first_seen].
  rewrite !elem_of_cons, list_elem_of_filter, IH.
  destruct (decide (x = h)); tauto.
Qed.

Lemma first_seen_NoDup (l : list string) : NoDup (first_seen l).
Proof.
  induction l as [|h l IH]; [constructor|]. cbn [first_seen].
  constructor; [|by apply NoDup_filter].
  rewrite list_elem_of_filter. tauto.
Qed.

Lemma first_seen_snoc (l : list string) x :
  first_seen (l ++ [x]) = first_seen l ++ (if decide (x ∈ l) then [] else [x]).
Proof.
  induction l as [|h l IH].
  - case_decide as H; [by apply elem_of_nil in H|done].
  - cbn [app first_seen]. rewrite IH, filter_app. f_equal. f_equal.
    destruct (decide (x ∈ l)) as [Hin|Hin];
      destruct (decide (x ∈ h :: l)) as [Hin'|Hin'];
      rewrite ?filter_cons, ?filter_nil; try case_decide; try done.
    all: exfalso; rewrite elem_of_cons in Hin';
      destruct (decide (x = h)); tauto.
Qed.

End first_seen.

Section dict_facts.
Context {V : Type}.
Implicit Types (d : list (string * V)) (k : string).

Lemma dict_mem_keys d k : dict.mem k d = true ↔ k ∈ d.*1.
Proof.
  unfold dict.mem. induction d as [|[k' v] d IH]; simpl.
  - split; [done|]. intros H. by apply elem_of_nil in H.
  - rewrite elem_of_cons. case_bool_decide as Hk.
    + split; [intros _; by left|done].
    + rewrite IH. split; [by right|]. intros [->|H]; [done|done].
Qed.

Lemma dict_set_fresh d k v : k ∉ d.*1 → dict.set k v d = d ++ [(k, v)].
Proof.
  induction d as [|[k' v'] d IH]; simpl; [done|].
  rewrite not_elem_of_cons. intros [Hne Hk].
  rewrite bool_decide_eq_false_2 by done. by rewrite IH.
Qed.

Lemma dict_alter_snoc d k v f :
  k ∉ d.*1 → dict.alter f k (d ++ [(k, v)]) = d ++ [(k, f v)].
Proof.
  induction d as [|[k' v'] d IH]; simpl.
  - intros _. by rewrite bool_decide_eq_true_2.
  - rewrite not_elem_of_cons. intros [Hne Hk].
    rewrite bool_decide_eq_false_2 by done. by rewrite IH.
Qed.

Lemma dict_alter_alter d k f g :
  dict.alter f k (dict.alter g k d) = dict.alter (f ∘ g) k d.
Proof.
  induction d as [|[k' v'] d IH]; simpl; [done|].
  case_bool_decide; simpl.
  - by rewrite bool_decide_eq_true_2.
  - rewrite bool_decide_eq_false_2 by done. by rewrite IH.
Qed.

(** On a dict built from distinct keys, [alter] changes the one entry. *)
Lemma dict_alter_fmap (G G' : string → V) (l : list string) k f :
  NoDup l →
  G' k = f (G k) → (∀ k', k' ≠ k → G' k' = G k') →
  dict.alter f k ((λ k', (k', G k')) <$> l) = (λ k', (k', G' k')) <$> l.
Proof.
  intros Hnd Hk Hother. induction Hnd as [|k' l Hnin Hnd IH]; [done|].
  cbn [fmap list_fmap dict.alter]. case_bool_decide as Heq.
  - subst k'. rewrite Hk. f_equal.
    apply list_fmap_ext. intros i x Hx.
    rewrite Hother; [done|]. intros ->. apply Hnin.
    by apply list_elem_of_lookup_2 in Hx.
  - rewrite Hother by done. f_equal. apply IH.
Qed.

End dict_facts.

Section summaries.
Implicit Types (rows : list habit_history.row) (r : habit_history.row).

Lemma rows_of_snoc h rows r :
  rows_of h (rows ++ [r]) =
  rows_of h rows ++ (if decide (habit_history.habit r = h) then [r] else []).
Proof. unfold rows_of. by rewrite filter_app. Qed.

Lemma rows_of_nil h rows :
  rows_of h rows = [] ↔ h ∉ habit_history.habit <$> rows.
Proof.
  unfold rows_of. split.
  - intros Hnil (r & -> & Hr)%list_elem_of_fmap.
    by apply (filter_nil_not_elem_of _ _ r Hnil).
  - intros Hnin. apply filter_none. intros r Hr Hh. apply Hnin.
    apply list_elem_of_fmap. by exists r.
Qed.

Lemma summary_other h rows r :
  habit_history.habit r ≠ h → summary h (rows ++ [r]) = summary h rows.
Proof.
  intros Hne. unfold summary, start_of, current_of.
  by rewrite rows_of_snoc, decide_False, app_nil_r.
Qed.

Lemma summary_first rows r :
  habit_history.habit r ∉ habit_history.habit <$> rows →
  summary (habit_history.habit r) (rows ++ [r]) =
  {| start := habit_history.previous_value r;
     current := habit_history.new_value r;
     trend := [(habit_history.date_applied r, habit_history.new_value r)] |}.
Proof.
  intros Hnin. apply rows_of_nil in Hnin.
  unfold summary, start_of, current_of.
  by rewrite rows_of_snoc, decide_True, Hnin.
Qed.

Lemma summary_next rows r :
  habit_history.habit r ∈ habit_history.habit <$> rows →
  summary (habit_history.habit r) (rows ++ [r]) =
  {| start := start (summary (habit_history.habit r) rows);
     current := habit_history.new_value r;
     trend := trend (summary (habit_history.habit r) rows) ++
              [(habit_history.date_applied r, habit_history.new_value r)] |}.
Proof.
  intros Hin. unfold summary, start_of, current_of. cbn [start trend].
  rewrite rows_of_snoc, decide_True by done.
  destruct (rows_of (habit_history.habit r) rows) as [|r' l] eqn:E.
  - apply rows_of_nil in E. done.
  - by rewrite last_snoc, fmap_app.
Qed.

(** The dict after the loop: one key per habit, in the order the habits
    first occur, each with the summary of its rows. *)
Lemma foldl_projections_step rows :
  foldl projections_step []
    ((λ h, (habit_history.habit h, habit_history.previous_value h,
            habit_history.new_value h, habit_history.date_applied h))
       <$> rows) =
  (λ h, (h, summary h rows)) <$> first_seen (habit_history.habit <$> rows).
Proof.
  induction rows as [|r rows IH] using rev_ind; [done|].
  rewrite fmap_app, foldl_app, IH. cbn [fmap list_fmap foldl].
  unfold projections_step. rewrite dict_alter_alter.
  set (F := (λ h, (h, summary h rows)) <$> _).
  assert (Hkeys : F.*1 = first_seen (habit_history.habit <$> rows)).
  { unfold F. rewrite <- list_fmap_compose. apply list_fmap_id. }
  rewrite (fmap_app habit_history.habit rows [r]).
  change (habit_history.habit <$> [r]) with [habit_history.habit r].
  rewrite first_seen_snoc.
  destruct (decide (habit_history.habit r ∈ habit_history.habit <$> rows))
    as [Hin|Hin].
  - assert (Hmem : dict.mem (habit_history.habit r) F = true).
    { apply dict_mem_keys. rewrite Hkeys. by apply first_seen_elem. }
    rewrite Hmem, app_nil_r. cbn [negb]. unfold F.
    apply dict_alter_fmap; [apply first_seen_NoDup| |].
    + by rewrite summary_next.
    + intros k Hk. by apply summary_other.
  - assert (Hfresh : habit_history.habit r ∉ F.*1).
    { rewrite Hkeys. by rewrite first_seen_elem. }
    assert (Hmem : dict.mem (habit_history.habit r) F = false).
    { destruct (dict.mem _ F) eqn:E; [|done].
      by apply dict_mem_keys in E. }
    rewrite Hmem. cbn [negb].
    rewrite dict_set_fresh, dict_alter_snoc by done.
    rewrite fmap_app. cbn [fmap list_fmap compose start current trend app].
    rewrite summary_first by done. f_equal.
    unfold F. apply list_fmap_ext. intros i k Hk. f_equal.
    symmetry. apply summary_other. intros Heq. apply Hin.
    apply list_elem_of_lookup_2 in Hk.
    apply (proj1 (first_seen_elem _ _)) in Hk. by rewrite Heq.
Qed.

End summaries.

Lemma summary_of_present h rows :
  h ∈ habit_history.habit <$> rows →
  start_of h rows = Some (start (summary h rows)) ∧
  current_of h rows = Some (current (summary h rows)).
Proof.
  intros Hin. unfold summary, start_of, current_of. cbn [start current].
  destruct (rows_of h rows) as [|r l] eqn:E.
  - apply rows_of_nil in E. done.
  - split; [done|]. destruct (last (r :: l)) eqn:El; [done|].
    by apply last_None in El.
Qed.

(** C9: the reporter reads the accepted history entries of the user in
    date-ascending order and answers with one sentence per habit, in the
    order the habits first occur; the sentence of a habit reads "could
    improve from 'START' to 'CURRENT'", START being the previous value of
    the first entry of the habit and CURRENT the new value of its last
    entry.  Without any accepted entry the answer is a message. *)
Theorem projections_restate_history db user_id :
  let rows := sql.accepted_rows user_id db in
  rows ≡ₚ filter (λ h, habit_history.user_id h = user_id ∧
                       habit_history.status h = "accepted") (history db) ∧
  Sorted (λ a b, datetime.date_le (habit_history.date_applied a)
                                  (habit_history.date_applied b)) rows ∧
  (rows = [] →
   reply (habit_projections true db user_id) = Message no_projection) ∧
  (rows ≠ [] →
   ∃ items,
     reply (habit_projections true db user_id) =
       Projections (future_insight <$> items) ∧
     items.*1 = first_seen (habit_history.habit <$> rows) ∧
     NoDup items.*1 ∧
     (∀ h, h ∈ items.*1 ↔ ∃ row, row ∈ rows ∧ habit_history.habit row = h) ∧
     (∀ h data, (h, data) ∈ items →
        start_of h rows = Some (start data) ∧
        current_of h rows = Some (current data) ∧
        future_insight (h, data) =
          "📈 If you continue, your " +:+ h +:+ " could improve from '" +:+
          str_val (start data) +:+ "' to '" +:+ str_val (current data) +:+
          "' within a few months!")).
Proof.
  intros rows.
  assert (Hrun : reply (habit_projections true db user_id) =
    match rows with
    | [] => Message no_projection
    | _ :: _ =>
        Projections (future_insight <$>
          ((λ h, (h, summary h rows)) <$>
           first_seen (habit_history.habit <$> rows)))
    end).
  { unfold habit_projections, get_db_connection, habit_projections_on, finish.
    rewrite run_bind, run_select. cbn [steps working connect id fst snd].
    unfold sql.accepted_history. fold rows.
    destruct (_ <$> rows) as [|t ts] eqn:E.
    - apply fmap_nil_inv in E. by rewrite E.
    - rewrite <- E, foldl_projections_step.
      destruct rows; [done|reflexivity]. }
  split; [apply merge_sort_Permutation|].
  split.
  { assert (Htot : Total (λ a b : habit_history.row,
              datetime.date_le (habit_history.date_applied a)
                               (habit_history.date_applied b)))
      by (intros a b; apply date_le_total).
    by apply Sorted_merge_sort. }
  split; [intros E; by rewrite Hrun, E|].
  intros Hne.
  exists ((λ h, (h, summary h rows)) <$>
          first_seen (habit_history.habit <$> rows)).
  assert (Hkeys : ((λ h, (h, summary h rows)) <$>
                   first_seen (habit_history.habit <$> rows)).*1 =
                  first_seen (habit_history.habit <$> rows)).
  { rewrite <- list_fmap_compose. apply list_fmap_id. }
  split; [rewrite Hrun; by destruct rows|].
  split; [done|]. rewrite Hkeys.
  split; [apply first_seen_NoDup|]. split.
  - intros h. rewrite first_seen_elem, list_elem_of_fmap.
    split; intros (row & H1 & H2); exists row; by split.
  - intros h data (k & Heq & Hk)%list_elem_of_fmap.
    injection Heq as -> ->.
    apply (proj1 (first_seen_elem _ _)) in Hk.
    destruct (summary_of_present k rows Hk) as [Hs Hc].
    by repeat split.
Qed.

(** C9 at a store whose history is not kept in date order: the wake-up
    habit went from 09:00 over 08:00 to 07:00, the sleep habit from 01:00
    to 00:00; the rejected entry is not reported. *)
Lemma projections_restate_history_sample :
  reply (habit_projections true sample.with_history 1) =
  Projections
    [ "📈 If you continue, your wake_up_time could improve from '09:00' to '07:00' within a few months!";
      "📈 If you continue, your sleep_time could improve from '01:00' to '00:00' within a few months!" ].
Proof. by vm_compute. Qed.

(** C9 at the same store, through the theorem: one item per habit, the
    habit met first in date order coming first. *)
Lemma projections_restate_history_items :
  ∃ items,
    reply (habit_projections true sample.with_history 1) =
      Projections (future_insight <$> items) ∧
    items.*1 = ["wake_up_time"; "sleep_time"].
Proof.
  destruct (projections_restate_history sample.with_history 1)
    as (_ & _ & _ & H).
  destruct H as (items & Hr & Hk & _); [by vm_compute|].
  exists items. split; [exact Hr|]. rewrite Hk. by vm_compute.
Defined.

(** * Further properties of the endpoints *)

(** ** The four ways a call of the rule engine ends *)

Lemma adjust_habits_outcomes up today db user_id :
  let ex : gset string := list_to_set (sql.pending_habits user_id db) in
  let out := adjust_habits up today db user_id in
  (up = false ∧ out = no_connection db) ∨
  (sql.latest_routine user_id db = None ∧
   out = {| reply := Message no_routine; store := db; seen := [db; db] |}) ∨
  (∃ w s meals e st bad wk n,
     sql.latest_routine user_id db = Some (w, s, meals, e, st, bad, wk) ∧
     rules.meal_fires ex meals = true ∧ ¬ well_formed meals ∧
     out = {| reply := Exception ValueError; store := db;
              seen := replicate n db |}) ∨
  ∃ w s meals e st bad wk news,
    up = true ∧
    sql.latest_routine user_id db = Some (w, s, meals, e, st, bad, wk) ∧
    (rules.meal_fires ex meals = false ∨
     Forall2 (λ time new_time, shifted time = Some new_time)
       (as_list meals) news) ∧
    let params :=
      rules.wake_up_params user_id ex w s ++ rules.sleep_params user_id ex s ++
      rules.meal_params user_id ex meals news ++
      rules.bad_habits_params user_id ex bad in
    out =
    {| reply := Adjustments
         (rules.wake_up_proposals ex w s ++ rules.sleep_proposals ex s ++
          rules.meal_proposals ex meals news ++
          rules.bad_habits_proposals ex bad);
       store := inserted today params db;
       seen := replicate (2 + length params) db ++
               [inserted today params db] |}.
Proof.
  intros ex out. subst out. destruct up; [|by left].
  destruct (sql.latest_routine user_id db)
    as [[[[[[[w s] meals] e] st] bad] wk]|] eqn:E.
  - destruct (rules.meal_fires ex meals) eqn:Hf.
    + destruct (decide (Forall (λ time, is_Some (shifted time))
                          (as_list meals))) as [Hw|Hw].
      * destruct (well_formed_news meals Hw) as [news Hn].
        do 3 right. exists w, s, meals, e, st, bad, wk, news.
        split; [done|]. split; [done|]. split; [by right|].
        apply (adjust_habits_answers today db user_id w s meals e st bad wk
                 news E). by right.
      * destruct (adjust_habits_raises today db user_id _ _ _ _ _ _ _ E Hf Hw)
          as [n Hn].
        right. right. left. by exists w, s, meals, e, st, bad, wk, n.
    + do 3 right. exists w, s, meals, e, st, bad, wk, [].
      split; [done|]. split; [done|]. split; [by left|].
      apply (adjust_habits_answers today db user_id w s meals e st bad wk
               [] E). by left.
  - right. left. split; [done|]. by apply adjust_habits_no_routine.
Qed.

Lemma not_in_not_pending user_id db h :
  h ∉ (list_to_set (sql.pending_habits user_id db) : gset string) →
  pending_of user_id h db = [].
Proof.
  intros Hex. destruct (pending_of user_id h db) eqn:Hp; [done|].
  destruct Hex. apply pending_habits_spec. by rewrite Hp.
Qed.

Lemma fires_absent (ex : gset string) s meals bad :
  (rules.wake_up_fires ex s = true → "wake_up_time" ∉ ex) ∧
  (rules.sleep_fires ex s = true → "sleep_time" ∉ ex) ∧
  (rules.meal_fires ex meals = true → "meal_times" ∉ ex) ∧
  (rules.bad_habits_fires ex bad = true → "bad_habits" ∉ ex).
Proof.
  repeat split; intros Hf Hin;
    destruct (fires_not_pending ex s meals bad _ Hin) as (H1 & H2 & H3 & H4);
    tauto.
Qed.

(** ** What the rule engine never does *)

(** X1: a proposal of the rule engine always bears one of the four habit
    names, and never the name of a habit that had a pending record of the
    user when the call started. *)
Theorem never_proposes_a_pending_habit up today db user_id p :
  p ∈ proposed (reply (adjust_habits up today db user_id)) →
  adjustment.habit p ∈ habit_names ∧
  pending_of user_id (adjustment.habit p) db = [].
Proof.
  destruct (adjust_habits_outcomes up today db user_id)
    as [[_ ->]|[[_ ->]|[(w & s & meals & e & st & bad & wk & n & _ & _ & _ & ->)
       |(w & s & meals & e & st & bad & wk & news & _ & _ & _ & ->)]]];
    cbn [reply no_connection proposed]; try (intros H; by apply elem_of_nil in H).
  intros Hp.
  set (ex := list_to_set (sql.pending_habits user_id db) : gset string) in *.
  destruct (fires_absent ex s meals bad) as (Hw & Hs & Hm & Hb).
  unfold habit_names.
  destruct (proposal_of_rule ex w s meals news bad p Hp)
    as [[Hf ->]|[[Hf ->]|[[Hf ->]|[Hf ->]]]]; cbn [adjustment.habit];
    (split; [rewrite !elem_of_cons; tauto|apply not_in_not_pending; auto]).
Qed.

(** X1 at the sample store after one call: every habit is pending, so the
    wake-up proposal cannot be in a second answer. *)
Lemma never_proposes_a_pending_habit_sample :
  adjustment.mk "wake_up_time" (adjustment.Str "06:00")
    ∈ proposed (reply (adjust_habits true sample.today sample.fresh 1)) ∧
  pending_of 1 "wake_up_time" sample.fresh = [].
Proof.
  assert (H : adjustment.mk "wake_up_time" (adjustment.Str "06:00")
    ∈ proposed (reply (adjust_habits true sample.today sample.fresh 1)))
    by (vm_compute; by left).
  split; [exact H|].
  exact (proj2 (never_proposes_a_pending_habit true sample.today sample.fresh
                  1 _ H)).
Defined.

Lemma param_user user_id (ex : gset string) w s meals news bad p :
  p ∈ rules.wake_up_params user_id ex w s ++
      rules.sleep_params user_id ex s ++
      rules.meal_params user_id ex meals news ++
      rules.bad_habits_params user_id ex bad →
  p.1.1.1.1 = user_id.
Proof.
  unfold rules.wake_up_params, rules.sleep_params,
    rules.meal_params, rules.bad_habits_params.
  rewrite !elem_of_app.
  assert (Hzip : p ∈ zip_with (rules.meal_param user_id) (as_list meals) news
                 → p.1.1.1.1 = user_id).
  { generalize (as_list meals). intros l. revert news.
    induction l as [|t l IH]; intros [|n news]; cbn [zip_with];
      rewrite ?elem_of_nil, ?elem_of_cons; try done.
    intros [->|H]; [done|]. by apply (IH news). }
  destruct (rules.wake_up_fires ex s), (rules.sleep_fires ex s),
    (rules.meal_fires ex meals), (rules.bad_habits_fires ex bad);
    rewrite ?list_elem_of_singleton, ?elem_of_nil;
    intuition (subst; auto).
Qed.

Lemma appended_rows up today db user_id :
  let out := adjust_habits up today db user_id in
  routines (store out) = routines db ∧
  history (store out) = history db ∧
  ∃ new,
    adjustments (store out) = adjustments db ++ new ∧
    Forall (λ a, habit_adjustments.user_id a = user_id ∧
                 habit_adjustments.status a = "pending" ∧
                 habit_adjustments.applied_on a = today ∧
                 habit_adjustments.habit a ∈ habit_names) new.
Proof.
  intros out. subst out.
  destruct (adjust_habits_outcomes up today db user_id)
    as [[_ ->]|[[_ ->]|[(w & s & meals & e & st & bad & wk & n & _ & _ & _ & ->)
       |(w & s & meals & e & st & bad & wk & news & _ & _ & _ & ->)]]];
    cbn [store no_connection];
    try (split; [done|]; split; [done|]; exists [];
         by rewrite app_nil_r).
  set (ex := list_to_set (sql.pending_habits user_id db) : gset string).
  set (params := _ ++ _ ++ _ ++ _).
  rewrite inserted_routines, inserted_history, inserted_adjustments.
  split; [done|]. split; [done|]. eexists. split; [done|].
  apply Forall_forall. intros a Ha.
  apply elem_of_lookup_imap_1 in Ha as (i & p & -> & Hp).
  apply list_elem_of_lookup_2 in Hp.
  pose proof (param_user user_id ex w s meals news bad p Hp) as Hu.
  pose proof (param_of_rule user_id ex w s meals news bad p Hp) as Hh.
  destruct p as [[[[u cv] nv] r] h]. cbn [sql.pending_row
    habit_adjustments.user_id habit_adjustments.status
    habit_adjustments.applied_on habit_adjustments.habit fst snd] in *.
  repeat split; try done. unfold habit_names. rewrite !elem_of_cons.
  tauto.
Qed.

(** X2: all a call of the rule engine does to the store is to append rows
    to the adjustment table: each new row belongs to the user of the call,
    is pending, dated with the current date and named after one of the
    four habits; the rows that were there stay, in their order, and the
    routines and the history are untouched. *)
Theorem adjust_habits_only_appends up today db user_id :
  let out := adjust_habits up today db user_id in
  routines (store out) = routines db ∧
  history (store out) = history db ∧
  ∃ new,
    adjustments (store out) = adjustments db ++ new ∧
    Forall (λ a, habit_adjustments.user_id a = user_id ∧
                 habit_adjustments.status a = "pending" ∧
                 habit_adjustments.applied_on a = today ∧
                 habit_adjustments.habit a ∈ habit_names) new.
Proof. apply appended_rows. Qed.



(** X4: the proposals of a call reach the store together: whatever
    another connection reads while the call runs is the store before the
    call or the store with all the rows of the call. *)
Theorem adjust_habits_is_atomic up today db user_id :
  let out := adjust_habits up today db user_id in
  Forall (λ d, d = db ∨ d = store out) (seen out).
Proof.
  intros out. subst out.
  destruct (adjust_habits_outcomes up today db user_id)
    as [[_ ->]|[[_ ->]|[(w & s & meals & e & st & bad & wk & n & _ & _ & _ & ->)
       |(w & s & meals & e & st & bad & wk & news & _ & _ & _ & ->)]]];
    cbn [store seen no_connection].
  - apply Forall_nil_2.
  - repeat apply Forall_cons_2; try apply Forall_nil_2; by left.
  - apply Forall_replicate. by left.
  - apply Forall_app. split; [apply Forall_replicate; by left|].
    apply Forall_cons_2; [by right|apply Forall_nil_2].
Qed.

(** ** The sleep proposal *)

(** X5: for every hour of the day the suggested sleep time is 22 o'clock
    with the minute of the recorded sleep time: [max(22, hour - 1)] is 22
    for each hour up to 23.  So any "sleep_time" proposal of an answer
    reads "22:MM". *)
Theorem sleep_proposal_is_always_22 up today db user_id
    w s meals e st bad wk p :
  sql.latest_routine user_id db = Some (w, s, meals, e, st, bad, wk) →
  datetime.hour s ≤ 23 →
  p ∈ proposed (reply (adjust_habits up today db user_id)) →
  adjustment.habit p = "sleep_time" →
  adjustment.suggested_change p =
  adjustment.Str ("22:" +:+ Py.format_0d 2 (datetime.minute s)).
Proof.
  intros E Hh.
  destruct (adjust_habits_outcomes up today db user_id)
    as [[_ ->]|[[_ ->]|[(w' & s' & meals' & e' & st' & bad' & wk' & n & _ & _
                          & _ & ->)
       |(w' & s' & meals' & e' & st' & bad' & wk' & news & _ & E' & _ & ->)]]];
    cbn [reply no_connection proposed]; try (intros H; by apply elem_of_nil in H).
  rewrite E in E'. injection E' as <- <- <- <- <- <- <-.
  intros Hp Hhabit.
  destruct (proposal_of_rule _ w s meals news bad p Hp)
    as [[_ ->]|[[_ ->]|[[_ ->]|[_ ->]]]]; try discriminate Hhabit.
  cbn [adjustment.suggested_change]. unfold rules.new_sleep_time.
  by rewrite Z.max_l by lia.
Qed.

(** X5 at the sample store: the user went to bed at 03:15 and is told
    22:15. *)
Lemma sleep_proposal_is_always_22_sample :
  adjustment.suggested_change
    (adjustment.mk "sleep_time" (adjustment.Str "22:15")) =
  adjustment.Str ("22:" +:+ Py.format_0d 2 15).
Proof.
  assert (Hh : datetime.hour (datetime.mkTime 3 15 0 0) ≤ 23) by (simpl; lia).
  apply (sleep_proposal_is_always_22 true sample.today sample.fresh 1
           (datetime.mkTime 7 0 0 0) (datetime.mkTime 3 15 0 0)
           (Some ["07:00"; "12:30"; "19:00"]) 5 6
           (Some ["coffee"; "sugar"; "lateNight"]) "15-minute walk"
           _ eq_refl Hh); [|done].
  vm_compute. right. by left.
Defined.

(** ** Calling the rule engine twice *)

Lemma latest_routine_inserted today ps user_id db :
  sql.latest_routine user_id (inserted today ps db) =
  sql.latest_routine user_id db.
Proof. unfold sql.latest_routine. by rewrite inserted_routines. Qed.

(** A habit that is not pending after the INSERTs was not pending before
    and got no row. *)
Lemma not_pending_after today user_id db ps h :
  h ∉ (list_to_set (sql.pending_habits user_id (inserted today ps db))
         : gset string) →
  (h ∉ (list_to_set (sql.pending_habits user_id db) : gset string)) ∧
  length (filter (for_habit user_id h) ps) = 0%nat.
Proof.
  intros Hex. apply not_in_not_pending in Hex.
  destruct (pending_of_inserted today user_id h ps db) as (rows & Hrows & Hlen).
  rewrite Hex in Hrows. symmetry in Hrows.
  apply app_eq_nil in Hrows as [Hold ->].
  split; [by apply not_pending_not_in|done].
Qed.

(** X6: after a call that answered with proposals, a second call for the
    same user stores nothing, and the only proposal it can carry is the
    "meal_times" proposal with the empty sequence, which the first call
    carried without storing a row for it. *)
Theorem second_call_stores_nothing up today db user_id l up' today' :
  reply (adjust_habits up today db user_id) = Adjustments l →
  let db1 := store (adjust_habits up today db user_id) in
  let out := adjust_habits up' today' db1 user_id in
  store out = db1 ∧
  ∀ p, p ∈ proposed (reply out) →
       p = adjustment.mk "meal_times" (adjustment.StrList []) ∧ p ∈ l.
Proof.
  destruct (adjust_habits_outcomes up today db user_id)
    as [[_ ->]|[[_ ->]|[(w & s & meals & e & st & bad & wk & n & _ & _ & _ & ->)
       |(w & s & meals & e & st & bad & wk & news & _ & E & Hm & ->)]]];
    cbn [reply store no_connection]; try discriminate.
  set (ex := list_to_set (sql.pending_habits user_id db) : gset string) in *.
  set (params := rules.wake_up_params user_id ex w s ++ _ ++ _ ++ _).
  intros [= <-].
  destruct (adjust_habits_outcomes up' today' (inserted today params db)
              user_id)
    as [[_ ->]|[[_ ->]|[(w' & s' & meals' & e' & st' & bad' & wk' & n & _ & _
                          & _ & ->)
       |(w' & s' & meals' & e' & st' & bad' & wk' & news' & _ & E' & Hm'
         & ->)]]];
    cbn [reply store no_connection proposed];
    try (split; [done|]; intros p Hp; by apply elem_of_nil in Hp).
  rewrite latest_routine_inserted, E in E'.
  injection E' as <- <- <- <- <- <- <-.
  set (ex1 := list_to_set
         (sql.pending_habits user_id (inserted today params db))
         : gset string) in *.
  assert (Hcount : ∀ h, h ∉ ex1 →
    (h ∉ ex) ∧
    ¬ (h = "wake_up_time" ∧ rules.wake_up_fires ex s = true) ∧
    ¬ (h = "sleep_time" ∧ rules.sleep_fires ex s = true) ∧
    ¬ (h = "bad_habits" ∧ rules.bad_habits_fires ex bad = true) ∧
    (h = "meal_times" → rules.meal_fires ex meals = true →
     length (zip_with (rules.meal_param user_id) (as_list meals) news) =
     0%nat)).
  { intros h Hh.
    destruct (not_pending_after today user_id db params h Hh) as [Hex Hc].
    split; [done|]. unfold params in Hc.
    rewrite !filter_app, !length_app in Hc.
    rewrite wake_up_params_for, sleep_params_for, meal_params_for,
      bad_habits_params_for in Hc.
    repeat case_decide; try (simpl in Hc; lia);
      repeat split; try done; intros; first [simpl in Hc; lia | tauto]. }
  destruct (fires_absent ex1 s meals bad) as (Hw1 & Hs1 & Hm1 & Hb1).
  assert (Hw : rules.wake_up_fires ex1 s = false).
  { destruct (rules.wake_up_fires ex1 s) eqn:Hf; [|done]. exfalso.
    destruct (Hcount _ (Hw1 eq_refl)) as (Hex & Hno & _). apply Hno.
    split; [done|]. unfold rules.wake_up_fires in *.
    apply andb_prop in Hf as [_ ->]. rewrite andb_true_r.
    by apply bool_decide_eq_true. }
  assert (Hs : rules.sleep_fires ex1 s = false).
  { destruct (rules.sleep_fires ex1 s) eqn:Hf; [|done]. exfalso.
    destruct (Hcount _ (Hs1 eq_refl)) as (Hex & _ & Hno & _). apply Hno.
    split; [done|]. unfold rules.sleep_fires in *.
    apply andb_prop in Hf as [_ ->]. rewrite andb_true_r.
    by apply bool_decide_eq_true. }
  assert (Hb : rules.bad_habits_fires ex1 bad = false).
  { destruct (rules.bad_habits_fires ex1 bad) eqn:Hf; [|done]. exfalso.
    destruct (Hcount _ (Hb1 eq_refl)) as (Hex & _ & _ & Hno & _). apply Hno.
    split; [done|]. unfold rules.bad_habits_fires in *.
    apply andb_prop in Hf as [Hf ->]. apply andb_prop in Hf as [_ ->].
    rewrite !andb_true_r. by apply bool_decide_eq_true. }
  assert (Hmeal : rules.meal_fires ex1 meals = true →
                  rules.meal_fires ex meals = true ∧ as_list meals = [] ∧
                  news = [] ∧ news' = []).
  { intros Hf.
    destruct (Hcount _ (Hm1 Hf)) as (Hex & _ & _ & _ & Hlen).
    assert (Hfe : rules.meal_fires ex meals = true).
    { unfold rules.meal_fires in *. apply andb_prop in Hf as [_ ->].
      rewrite andb_true_r. by apply bool_decide_eq_true. }
    specialize (Hlen eq_refl Hfe).
    destruct Hm as [Hm|Hm]; [congruence|].
    rewrite length_zip_with, <- (Forall2_length _ _ _ Hm), Nat.min_id in Hlen.
    apply nil_length_inv in Hlen. rewrite Hlen in Hm, Hm'.
    apply Forall2_nil_inv_l in Hm.
    destruct Hm' as [Hm'|Hm']; [congruence|].
    by apply Forall2_nil_inv_l in Hm'. }
  unfold rules.wake_up_params, rules.sleep_params, rules.bad_habits_params,
    rules.wake_up_proposals, rules.sleep_proposals,
    rules.bad_habits_proposals, rules.meal_params, rules.meal_proposals.
  rewrite Hw, Hs, Hb.
  destruct (rules.meal_fires ex1 meals) eqn:Hf.
  - destruct (Hmeal eq_refl) as (Hfe & Hl & -> & ->). rewrite Hl, Hfe.
    cbn [zip_with app inserted foldl]. split; [done|].
    intros p Hp. apply list_elem_of_singleton in Hp as ->. split; [done|].
    rewrite !elem_of_app. right. right. by left.
  - cbn [app inserted foldl]. split; [done|].
    intros p Hp. by apply elem_of_nil in Hp.
Qed.

(** X6 at the sample store. *)
Lemma second_call_stores_nothing_sample :
  store (adjust_habits true sample.today sample.proposed_once 1) =
  sample.proposed_once.
Proof.
  exact (proj1 (second_call_stores_nothing true sample.today sample.fresh 1
                  _ true sample.today eq_refl)).
Defined.

(** ** The routine the rule engine reads *)

Lemma date_le_trans : Transitive datetime.date_le.
Proof. intros a b c. unfold datetime.date_le. lia. Qed.

Lemma date_le_refl : Reflexive datetime.date_le.
Proof. intros a. unfold datetime.date_le. lia. Qed.

(** The head of a list sorted by descending date is dated last. *)
Lemma latest_routine_spec user_id db :
  match sql.latest_routine user_id db with
  | None => ∀ r, r ∈ routines db → daily_routines.user_id r ≠ user_id
  | Some t =>
      ∃ r, r ∈ routines db ∧ daily_routines.user_id r = user_id ∧
           t = routine_tuple r ∧
           ∀ r', r' ∈ routines db → daily_routines.user_id r' = user_id →
                 datetime.date_le (daily_routines.date r')
                                  (daily_routines.date r)
  end.
Proof.
  unfold sql.latest_routine.
  set (R := λ a b : daily_routines.row,
              datetime.date_le (daily_routines.date b) (daily_routines.date a)).
  set (l := filter (λ r, daily_routines.user_id r = user_id) (routines db)).
  assert (Htot : Total R) by (intros a b; apply date_le_total).
  assert (Htr : Transitive R)
    by (intros a b c H1 H2; exact (date_le_trans _ _ _ H2 H1)).
  pose proof (merge_sort_Permutation R l) as Hperm.
  pose proof (StronglySorted_merge_sort R l) as Hsorted.
  destruct (merge_sort R l) as [|r rest]; cbn [head fmap option_fmap option_map].
  - apply Permutation_nil_l in Hperm. intros r Hr Hu.
    assert (Hin : r ∈ l) by (by apply list_elem_of_filter).
    rewrite <- Hperm in Hin. by apply elem_of_nil in Hin.
  - exists r.
    assert (Hr : r ∈ l) by (rewrite <- Hperm; left).
    apply list_elem_of_filter in Hr as [Hu Hr].
    split; [done|]. split; [done|]. split; [done|].
    intros r' Hr' Hu'.
    assert (Hin : r' ∈ r :: rest).
    { rewrite Hperm. by apply list_elem_of_filter. }
    apply StronglySorted_inv in Hsorted as [_ Hall].
    apply elem_of_cons in Hin as [->|Hin]; [apply date_le_refl|].
    rewrite Forall_forall in Hall. by apply Hall.
Qed.

(** X7: with the connection established, the rule engine answers "no
    data" exactly when the user has no routine; otherwise the routine it
    reads is one of the user that no other routine of the user
    post-dates. *)
Theorem rule_engine_reads_latest_routine today db user_id :
  (reply (adjust_habits true today db user_id) = Message no_routine ↔
   ∀ r, r ∈ routines db → daily_routines.user_id r ≠ user_id) ∧
  (∀ t, sql.latest_routine user_id db = Some t →
   ∃ r, r ∈ routines db ∧ daily_routines.user_id r = user_id ∧
        t = routine_tuple r ∧
        ∀ r', r' ∈ routines db → daily_routines.user_id r' = user_id →
              datetime.date_le (daily_routines.date r')
                               (daily_routines.date r)).
Proof.
  pose proof (latest_routine_spec user_id db) as Hspec.
  split; [split|].
  - destruct (adjust_habits_outcomes true today db user_id)
      as [[? _]|[[E _]|[(w & s & meals & e & st & bad & wk & n & _ & _ & _ & ->)
         |(w & s & meals & e & st & bad & wk & news & _ & _ & _ & ->)]]];
      try done.
    intros _. by rewrite E in Hspec.
  - intros Hnone.
    by rewrite (adjust_habits_no_routine _ _ _ (latest_routine_None _ _ Hnone)).
  - intros t E. by rewrite E in Hspec.
Qed.

(** X7 at a store with two routines of user 1, the older stored last:
    the routine the engine reads is not older than the one of 2025-01-20. *)
Lemma rule_engine_reads_latest_routine_sample :
  ∃ r, sql.latest_routine 1 scenario.two_days = Some (routine_tuple r) ∧
       datetime.date_le (datetime.mkDate 2025 1 20) (daily_routines.date r).
Proof.
  destruct (proj2 (rule_engine_reads_latest_routine sample.today
                     scenario.two_days 1) _ eq_refl)
    as (r & _ & _ & Ht & Hmax).
  exists r. split; [by rewrite <- Ht|].
  apply (Hmax (daily_routines.mk 1 (datetime.mkDate 2025 1 20)
                 (datetime.mkTime 10 0 0 0) (datetime.mkTime 23 45 0 0)
                 None "" None 2 2)); [|done].
  right. by left.
Defined.

(** ** Resolving adjustments *)

(** The three ways a call of the lifecycle manager ends. *)
Lemma update_habit_outcomes up today db id status :
  let out := update_habit up today db id status in
  (store out = db ∧
   (status ≠ "accepted" ∧ status ≠ "rejected" ∨ up = false ∨
    head (filter (λ a, habit_adjustments.adjustment_id a = id)
            (adjustments db)) = None)) ∨
  ∃ a,
    up = true ∧ (status = "accepted" ∨ status = "rejected") ∧
    head (filter (λ a, habit_adjustments.adjustment_id a = id)
            (adjustments db)) = Some a ∧
    out =
    {| reply := Message (moved_to_history id status);
       store :=
         {| routines := routines db;
            adjustments :=
              filter (λ a', habit_adjustments.adjustment_id a' ≠ id)
                (adjustments db);
            history := history db ++ [archived today status a];
            adjustment_id_seq := adjustment_id_seq db |};
       seen :=
         [db; db; db;
          {| routines := routines db;
             adjustments :=
               filter (λ a', habit_adjustments.adjustment_id a' ≠ id)
                 (adjustments db);
             history := history db ++ [archived today status a];
             adjustment_id_seq := adjustment_id_seq db |}] |}.
Proof.
  intros out. subst out.
  destruct (decide (status = "accepted" ∨ status = "rejected")) as [Hv|Hv].
  - destruct up.
    + destruct (head (filter
                  (λ a, habit_adjustments.adjustment_id a = id)
                  (adjustments db))) as [a|] eqn:E.
      * right. exists a. repeat split; try done.
        by apply update_habit_found.
      * left. rewrite (update_habit_not_found today db id status Hv E).
        split; [done|]. right. by right.
    + left. unfold update_habit.
      rewrite (proj1 (valid_status_passes status) Hv).
      split; [done|]. right. by left.
  - left. unfold update_habit. rewrite bool_decide_eq_true_2.
    + split; [done|]. left. tauto.
    + intros [|[|H]%elem_of_cons]%elem_of_cons; try tauto.
      by apply elem_of_nil in H.
Qed.

(** X8: an adjustment is resolved once.  After a call that reached the
    store, a second call with the same id, whatever its status, is
    answered with the not-found error and changes nothing. *)
Theorem resolved_only_once today today' db id status status' :
  status = "accepted" ∨ status = "rejected" →
  status' = "accepted" ∨ status' = "rejected" →
  let db1 := store (update_habit true today db id status) in
  update_habit true today' db1 id status' =
  {| reply := Error no_adjustment; store := db1; seen := [db1] |}.
Proof.
  intros Hv Hv' db1. apply (update_habit_not_found today' db1 id status' Hv').
  subst db1.
  destruct (update_habit_outcomes true today db id status)
    as [[-> [?|[?|E]]]|(a & _ & _ & _ & ->)]; try done; try tauto.
  cbn [store adjustments]. rewrite filter_none; [done|].
  intros a' Ha'. apply list_elem_of_filter in Ha' as [Hne _]. tauto.
Qed.

(** X8 at the sample store: the sleep proposal under key 2 is accepted,
    then rejecting it fails. *)
Lemma resolved_only_once_sample :
  reply (update_habit true sample.today
           (store (update_habit true sample.today sample.proposed_once 2
                     "accepted")) 2 "rejected") =
  Error no_adjustment.
Proof.
  by rewrite (resolved_only_once sample.today sample.today
                sample.proposed_once 2 "accepted" "rejected"
                (or_introl eq_refl) (or_intror eq_refl)).
Defined.

Lemma filter_unique_key {A} (f : A → Z) (l : list A) (a : A) :
  NoDup (f <$> l) → a ∈ l → filter (λ x, f x = f a) l = [a].
Proof.
  induction l as [|x l IH]; intros Hnd Hin; [by apply elem_of_nil in Hin|].
  rewrite fmap_cons in Hnd. apply NoDup_cons in Hnd as [Hx Hnd].
  rewrite filter_cons. apply elem_of_cons in Hin as [->|Hin].
  - rewrite decide_True by done. f_equal. apply filter_none.
    intros y Hy Heq. apply Hx. rewrite <- Heq. by apply list_elem_of_fmap_2.
  - rewrite decide_False; [by apply IH|].
    intros Heq. apply Hx. rewrite Heq. by apply list_elem_of_fmap_2.
Qed.

(** X9: when the ids of the adjustment table are distinct, a resolution
    takes exactly the adjustment with the given id out of the table and
    archives that one: the table before is the table after plus that row,
    the history grows by its entry, and the ids stay distinct. *)
Theorem resolution_moves_one_row today db status a :
  status = "accepted" ∨ status = "rejected" →
  NoDup (habit_adjustments.adjustment_id <$> adjustments db) →
  a ∈ adjustments db →
  let out :=
    update_habit true today db (habit_adjustments.adjustment_id a) status in
  adjustments db ≡ₚ a :: adjustments (store out) ∧
  history (store out) = history db ++ [archived today status a] ∧
  NoDup (habit_adjustments.adjustment_id <$> adjustments (store out)).
Proof.
  intros Hv Hnd Hin out. subst out.
  pose proof (filter_unique_key habit_adjustments.adjustment_id
                (adjustments db) a Hnd Hin) as Hone.
  rewrite (update_habit_found today db _ status Hv a) by (by rewrite Hone).
  cbn [store adjustments history].
  assert (Hperm : adjustments db ≡ₚ
    a :: filter (λ a', habit_adjustments.adjustment_id a' ≠
                       habit_adjustments.adjustment_id a) (adjustments db)).
  { rewrite <- (filter_app_complement
                  (λ x, habit_adjustments.adjustment_id x =
                        habit_adjustments.adjustment_id a) (adjustments db))
      at 1.
    by rewrite Hone. }
  split; [done|]. split; [done|].
  rewrite Hperm in Hnd. rewrite fmap_cons in Hnd.
  by apply NoDup_cons in Hnd as [_ Hnd].
Qed.

(** X9 at the sample store after one call of the rule engine: six rows
    with keys 1 to 6; resolving key 2 leaves five. *)
Lemma resolution_moves_one_row_sample :
  length (adjustments sample.proposed_once) = 6%nat ∧
  length (adjustments
            (store (update_habit true sample.today sample.proposed_once 2
                      "accepted"))) = 5%nat.
Proof.
  split; [by vm_compute|].
  assert (Hnd : NoDup (habit_adjustments.adjustment_id <$>
                       adjustments sample.proposed_once)).
  { vm_compute. repeat constructor; rewrite ?elem_of_cons, ?elem_of_nil;
      intuition discriminate. }
  assert (Hin : sql.pending_row sample.today 2
                  (1, VTime (datetime.mkTime 3 15 0 0), VText "22:15",
                   "Improve sleep quality", "sleep_time")
                ∈ adjustments sample.proposed_once)
    by (vm_compute; right; by left).
  destruct (resolution_moves_one_row sample.today sample.proposed_once
              "accepted" _ (or_introl eq_refl) Hnd Hin) as (Hperm & _ & _).
  apply Permutation_length in Hperm. cbn [length] in Hperm.
  cbn [sql.pending_row habit_adjustments.adjustment_id] in Hperm.
  assert (Hlen : length (adjustments sample.proposed_once) = 6%nat)
    by (by vm_compute).
  rewrite Hlen in Hperm. lia.
Defined.

(** ** The statuses the two writing endpoints leave in the store *)

(** X10: the writing endpoints keep the statuses in their tables: if
    every adjustment is pending and every history entry is accepted or
    rejected, this is still so after a call of the rule engine and after a
    call of the lifecycle manager, whatever their arguments. *)
Theorem writes_keep_statuses up today db user_id id status :
  all_pending db → resolved_only db →
  (all_pending (store (adjust_habits up today db user_id)) ∧
   resolved_only (store (adjust_habits up today db user_id))) ∧
  (all_pending (store (update_habit up today db id status)) ∧
   resolved_only (store (update_habit up today db id status))).
Proof.
  intros Hp Hr. split.
  - destruct (appended_rows up today db user_id)
      as (_ & Hh & new & Ha & Hnew).
    unfold all_pending, resolved_only. rewrite Hh, Ha. split; [|done].
    apply Forall_app. split; [done|].
    eapply Forall_impl; [exact Hnew|]. by intros a (_ & ? & _).
  - destruct (update_habit_outcomes up today db id status)
      as [[-> _]|(a & _ & Hv & _ & ->)]; [done|].
    unfold all_pending, resolved_only. cbn [store adjustments history].
    split.
    + apply Forall_forall. intros a' Ha'.
      apply list_elem_of_filter in Ha' as [_ Ha'].
      unfold all_pending in Hp. rewrite Forall_forall in Hp. by apply Hp.
    + apply Forall_app. split; [done|].
      apply Forall_cons_2; [exact Hv|apply Forall_nil_2].
Qed.

(** X10 at the sample store, whose tables are empty. *)
Lemma writes_keep_statuses_sample :
  all_pending sample.proposed_once ∧
  resolved_only
    (store (update_habit true sample.today sample.fresh 1 "accepted")).
Proof.
  assert (Hp : all_pending sample.fresh) by apply Forall_nil_2.
  assert (Hr : resolved_only sample.fresh) by apply Forall_nil_2.
  destruct (writes_keep_statuses true sample.today sample.fresh 1 1
              "accepted" Hp Hr) as [[H1 _] [_ H2]].
  by split.
Defined.

(** ** The progress report as a whole *)

Lemma habit_progress_run db user_id :
  reply (habit_progress true db user_id) =
  match sql.adjustment_rows user_id db with
  | [] => Message no_progress
  | rows =>
      Progress
        (entry_of <$>
           filter (λ a, habit_adjustments.status a = "accepted") rows)
        (entry_of <$>
           filter (λ a, habit_adjustments.status a = "pending") rows)
        (entry_of <$>
           filter (λ a, habit_adjustments.status a ≠ "accepted" ∧
                        habit_adjustments.status a ≠ "pending") rows)
  end.
Proof.
  unfold habit_progress, get_db_connection, habit_progress_on, finish.
  rewrite run_bind, run_select. cbn [steps working connect id fst snd].
  unfold sql.adjustments_of.
  destruct (sql.adjustment_rows user_id db) as [|r rows] eqn:E; [done|].
  rewrite <- E.
  destruct (_ <$> sql.adjustment_rows user_id db) as [|t ts] eqn:Et.
  - apply fmap_nil_inv in Et. congruence.
  - rewrite <- Et, foldl_progress_step. by rewrite E.
Qed.

(** X11: on a store where every adjustment is pending, which is all the
    two writing endpoints ever produce, the progress report lists every
    adjustment of the user under "pending" and its "accepted" and
    "rejected" lists are empty. *)
Theorem progress_shows_pending_only db user_id a :
  all_pending db →
  a ∈ adjustments db → habit_adjustments.user_id a = user_id →
  reply (habit_progress true db user_id) =
    Progress [] (entry_of <$> sql.adjustment_rows user_id db) [] ∧
  entry_of a ∈ entry_of <$> sql.adjustment_rows user_id db.
Proof.
  intros Hp Hin Hu. rewrite habit_progress_run.
  set (rows := sql.adjustment_rows user_id db).
  assert (Hrows : ∀ x, x ∈ rows → habit_adjustments.status x = "pending").
  { intros x Hx. unfold rows, sql.adjustment_rows in Hx.
    rewrite merge_sort_Permutation in Hx.
    apply list_elem_of_filter in Hx as [_ Hx].
    unfold all_pending in Hp. rewrite Forall_forall in Hp. by apply Hp. }
  assert (Ha : a ∈ rows).
  { unfold rows, sql.adjustment_rows. rewrite merge_sort_Permutation.
    by apply list_elem_of_filter. }
  split; [|by apply list_elem_of_fmap_2].
  assert (Hacc : filter (λ a, habit_adjustments.status a = "accepted") rows
                 = []).
  { apply filter_none. intros x Hx. by rewrite (Hrows x Hx). }
  assert (Hoth : filter (λ a, habit_adjustments.status a ≠ "accepted" ∧
                              habit_adjustments.status a ≠ "pending") rows
                 = []).
  { apply filter_none. intros x Hx [_ Hne]. by apply Hne, Hrows. }
  assert (Hpend : filter (λ a, habit_adjustments.status a = "pending") rows
                  = rows).
  { clear Ha Hacc Hoth. induction rows as [|x l IH]; [done|].
    rewrite filter_cons, decide_True by (apply Hrows; left).
    f_equal. apply IH. intros y Hy. apply Hrows. by right. }
  destruct rows as [|r rows']; [by apply elem_of_nil in Ha|].
  cbv beta iota zeta. by rewrite Hacc, Hoth, Hpend.
Qed.

(** X11 at the sample store after one call of the rule engine. *)
Lemma progress_shows_pending_only_sample :
  reply (habit_progress true sample.proposed_once 1) =
  Progress [] (entry_of <$> sql.adjustment_rows 1 sample.proposed_once) [].
Proof.
  assert (Hp : all_pending sample.proposed_once).
  { vm_compute. repeat apply Forall_cons_2; try apply Forall_nil_2; done. }
  assert (Hin : sql.pending_row sample.today 2
                  (1, VTime (datetime.mkTime 3 15 0 0), VText "22:15",
                   "Improve sleep quality", "sleep_time")
                ∈ adjustments sample.proposed_once)
    by (vm_compute; right; by left).
  exact (proj1 (progress_shows_pending_only sample.proposed_once 1 _ Hp Hin
                  eq_refl)).
Defined.

Lemma filter_three_way {A} (P Q : A → Prop)
    `{∀ x, Decision (P x)} `{∀ x, Decision (Q x)} (l : list A) :
  (∀ x, P x → ¬ Q x) →
  filter P l ++ filter Q l ++ filter (λ x, ¬ P x ∧ ¬ Q x) l ≡ₚ l.
Proof.
  intros Hexcl. induction l as [|x l IH]; [done|].
  rewrite !filter_cons.
  destruct (decide (P x)) as [HP|HP]; destruct (decide (Q x)) as [HQ|HQ].
  - by destruct (Hexcl x HP).
  - rewrite decide_False by tauto. simpl. by rewrite IH.
  - rewrite decide_False by tauto. cbn [app].
    rewrite <- Permutation_middle. by rewrite IH.
  - rewrite decide_True by tauto.
    rewrite app_assoc, <- Permutation_middle, <- app_assoc. by rewrite IH.
Qed.

Lemma StronglySorted_filter {A} (R : relation A) (P : A → Prop)
    `{∀ x, Decision (P x)} (l : list A) :
  StronglySorted R l → StronglySorted R (filter P l).
Proof.
  induction 1 as [|x l Hs IH Hall]; [constructor|].
  rewrite filter_cons. destruct (decide (P x)); [|done].
  constructor; [done|]. rewrite Forall_forall in *.
  intros y [_ Hy]%list_elem_of_filter. by apply Hall.
Qed.

Lemma adjustment_rows_sorted user_id db :
  StronglySorted
    (λ a b, datetime.date_le (habit_adjustments.applied_on a)
                             (habit_adjustments.applied_on b))
    (sql.adjustment_rows user_id db).
Proof.
  apply StronglySorted_merge_sort.
  - intros a b c. apply date_le_trans.
  - intros a b. apply date_le_total.
Qed.

(** X12: the progress report is a message exactly when the user has no
    adjustment; otherwise its three lists together hold each adjustment of
    the user once, and each list runs from the earliest to the latest
    date of proposal. *)
Theorem progress_partitions_the_rows db user_id :
  (reply (habit_progress true db user_id) = Message no_progress ↔
   ∀ a, a ∈ adjustments db → habit_adjustments.user_id a ≠ user_id) ∧
  (∀ accepted pending rejected,
     reply (habit_progress true db user_id) =
       Progress accepted pending rejected →
     ∃ la lp lr,
       accepted = entry_of <$> la ∧ pending = entry_of <$> lp ∧
       rejected = entry_of <$> lr ∧
       la ++ lp ++ lr ≡ₚ
         filter (λ a, habit_adjustments.user_id a = user_id)
           (adjustments db) ∧
       Forall (StronglySorted
                 (λ a b, datetime.date_le (habit_adjustments.applied_on a)
                                          (habit_adjustments.applied_on b)))
         [la; lp; lr]).
Proof.
  rewrite habit_progress_run.
  pose proof (adjustment_rows_sorted user_id db) as Hsorted.
  assert (Hperm : sql.adjustment_rows user_id db ≡ₚ
                  filter (λ a, habit_adjustments.user_id a = user_id)
                    (adjustments db))
    by apply merge_sort_Permutation.
  split; [split|].
  - destruct (sql.adjustment_rows user_id db); [|done]. intros _ a Ha Hu.
    assert (Hin : a ∈ filter (λ a, habit_adjustments.user_id a = user_id)
                        (adjustments db))
      by (by apply list_elem_of_filter).
    rewrite <- Hperm in Hin. by apply elem_of_nil in Hin.
  - intros Hnone. rewrite filter_none in Hperm by done.
    apply Permutation_nil_r in Hperm. by rewrite Hperm.
  - intros accepted pending rejected.
    destruct (sql.adjustment_rows user_id db) as [|r rows] eqn:E; [done|].
    rewrite <- E in *. cbv beta iota zeta. intros [= <- <- <-].
    eexists _, _, _. split; [done|]. split; [done|]. split; [done|].
    split.
    + rewrite <- Hperm. apply filter_three_way.
      intros x Hx. rewrite Hx. done.
    + repeat apply Forall_cons_2; try apply Forall_nil_2;
        by apply StronglySorted_filter.
Qed.

(** X12 at the sample store after one call: six pending rows. *)
Lemma progress_partitions_the_rows_sample :
  ∃ la lp lr,
    la ++ lp ++ lr ≡ₚ
      filter (λ a, habit_adjustments.user_id a = 1)
        (adjustments sample.proposed_once) ∧
    length lp = 6%nat.
Proof.
  destruct (proj2 (progress_partitions_the_rows sample.proposed_once 1)
              [] (entry_of <$> sql.adjustment_rows 1 sample.proposed_once) [])
    as (la & lp & lr & _ & Hp & _ & Hperm & _); [by vm_compute|].
  exists la, lp, lr. split; [done|].
  apply (f_equal length) in Hp. rewrite !length_fmap in Hp.
  rewrite <- Hp. by vm_compute.
Defined.

(** ** The history report *)

Lemma foldl_history_step (l : list habit_history.row) A R :
  foldl history_step (A, R)
    ((λ h, (habit_history.habit h, habit_history.previous_value h,
            habit_history.new_value h, habit_history.status h,
            habit_history.date_applied h)) <$> l) =
  (A ++ (entry_of_history <$>
           filter (λ h, habit_history.status h = "accepted") l),
   R ++ (entry_of_history <$>
           filter (λ h, habit_history.status h ≠ "accepted") l)).
Proof.
  revert A R. induction l as [|h l IH]; intros A R.
  - simpl. by rewrite !app_nil_r.
  - cbn [fmap list_fmap foldl history_step]. rewrite !filter_cons.
    fold (entry_of_history h).
    change (list_fmap _ _ ?f ?l) with (f <$> l).
    destruct (decide (habit_history.status h = "accepted")) as [Ha|Ha].
    + rewrite bool_decide_eq_true_2, decide_False by tauto.
      by rewrite IH, fmap_cons, <- app_assoc.
    + rewrite bool_decide_eq_false_2, decide_True by done.
      by rewrite IH, fmap_cons, <- app_assoc.
Qed.

Lemma habit_history_run db user_id :
  answer (habit_history true db user_id) =
  match sql.history_rows user_id db with
  | [] => Note no_history
  | rows =>
      History
        (entry_of_history <$>
           filter (λ h, habit_history.status h = "accepted") rows)
        (entry_of_history <$>
           filter (λ h, habit_history.status h ≠ "accepted") rows)
  end.
Proof.
  unfold habit_history, get_db_connection, habit_history_on, finish_report.
  rewrite run_bind, run_select. cbn [steps working connect id fst snd].
  unfold sql.history_of.
  destruct (sql.history_rows user_id db) as [|r rows] eqn:E; [done|].
  rewrite <- E.
  destruct (_ <$> sql.history_rows user_id db) as [|t ts] eqn:Et.
  - apply fmap_nil_inv in Et. congruence.
  - rewrite <- Et, foldl_history_step. by rewrite E.
Qed.

Lemma history_rows_sorted user_id db :
  StronglySorted
    (λ a b, datetime.date_le (habit_history.date_applied b)
                             (habit_history.date_applied a))
    (sql.history_rows user_id db).
Proof.
  apply StronglySorted_merge_sort.
  - intros a b c H1 H2. exact (date_le_trans _ _ _ H2 H1).
  - intros a b. apply date_le_total.
Qed.

(** X13: the history report is a message exactly when the user has no
    history entry; otherwise its two lists together hold each entry of
    the user once, "rejected" taking every entry whose status is not
    "accepted", and each list runs from the latest to the earliest date. *)
Theorem history_partitions_the_rows db user_id :
  (answer (habit_history true db user_id) = Note no_history ↔
   ∀ h, h ∈ history db → habit_history.user_id h ≠ user_id) ∧
  (∀ accepted rejected,
     answer (habit_history true db user_id) = History accepted rejected →
     ∃ la lr,
       accepted = entry_of_history <$> la ∧
       rejected = entry_of_history <$> lr ∧
       la ++ lr ≡ₚ
         filter (λ h, habit_history.user_id h = user_id) (history db) ∧
       Forall (λ h, habit_history.status h = "accepted") la ∧
       Forall (λ h, habit_history.status h ≠ "accepted") lr ∧
       Forall (StronglySorted
                 (λ a b, datetime.date_le (habit_history.date_applied b)
                                          (habit_history.date_applied a)))
         [la; lr]).
Proof.
  rewrite habit_history_run.
  pose proof (history_rows_sorted user_id db) as Hsorted.
  assert (Hperm : sql.history_rows user_id db ≡ₚ
                  filter (λ h, habit_history.user_id h = user_id)
                    (history db))
    by apply merge_sort_Permutation.
  split; [split|].
  - destruct (sql.history_rows user_id db); [|done]. intros _ h Hh Hu.
    assert (Hin : h ∈ filter (λ h, habit_history.user_id h = user_id)
                        (history db))
      by (by apply list_elem_of_filter).
    rewrite <- Hperm in Hin. by apply elem_of_nil in Hin.
  - intros Hnone. rewrite filter_none in Hperm by done.
    apply Permutation_nil_r in Hperm. by rewrite Hperm.
  - intros accepted rejected.
    destruct (sql.history_rows user_id db) as [|r rows] eqn:E; [done|].
    rewrite <- E in *. cbv beta iota zeta. intros [= <- <-].
    eexists _, _. split; [done|]. split; [done|].
    split; [|split; [|split]].
    + rewrite <- Hperm. apply filter_app_complement.
    + apply Forall_forall. by intros h [Hs _]%list_elem_of_filter.
    + apply Forall_forall. by intros h [Hs _]%list_elem_of_filter.
    + repeat apply Forall_cons_2; try apply Forall_nil_2;
        by apply StronglySorted_filter.
Qed.

(** X14: a resolution shows in the history report.  After the adjustment
    under the given id was resolved, the report of its user lists the
    entry, with the stored previous and new values and the date of the
    resolution, under "accepted" when the status was "accepted" and under
    "rejected" when it was "rejected". *)
Theorem resolution_shows_in_history today db id status a :
  status = "accepted" ∨ status = "rejected" →
  head (filter (λ a, habit_adjustments.adjustment_id a = id)
          (adjustments db)) = Some a →
  let db' := store (update_habit true today db id status) in
  let e :=
    {| entry.habit := habit_adjustments.habit a;
       entry.previous_value := habit_adjustments.current_value a;
       entry.new_value := habit_adjustments.next_suggested_value a;
       entry.date := datetime.str_date today |} in
  ∃ accepted rejected,
    answer (habit_history true db' (habit_adjustments.user_id a)) =
      History accepted rejected ∧
    (status = "accepted" → e ∈ accepted) ∧
    (status = "rejected" → e ∈ rejected).
Proof.
  intros Hv Ha db' e. subst db'.
  rewrite (update_habit_found today db id status Hv a Ha). cbn [store].
  rewrite habit_history_run.
  set (db' := {| routines := _; adjustments := _; history := _;
                 adjustment_id_seq := _ |}).
  assert (Hin : archived today status a
                ∈ sql.history_rows (habit_adjustments.user_id a) db').
  { unfold sql.history_rows. rewrite merge_sort_Permutation.
    apply list_elem_of_filter. split; [done|].
    cbn [db' history]. apply elem_of_app. right. by left. }
  destruct (sql.history_rows (habit_adjustments.user_id a) db')
    as [|r rows] eqn:E; [by apply elem_of_nil in Hin|].
  rewrite <- E in *. cbv beta iota zeta. eexists _, _. split; [done|].
  split; intros ->.
  - apply (list_elem_of_fmap_2 entry_of_history _
             (archived today "accepted" a)).
    by apply list_elem_of_filter.
  - apply (list_elem_of_fmap_2 entry_of_history _
             (archived today "rejected" a)).
    by apply list_elem_of_filter.
Qed.

(** X14 at the sample store after one call of the rule engine: the
    wake-up proposal under key 1 is rejected. *)
Lemma resolution_shows_in_history_sample :
  ∃ accepted rejected,
    answer (habit_history true
              (store (update_habit true sample.today sample.proposed_once 1
                        "rejected")) 1) = History accepted rejected ∧
    {| entry.habit := "wake_up_time";
       entry.previous_value := VTime (datetime.mkTime 7 0 0 0);
       entry.new_value := VText "06:00";
       entry.date := "2025-02-06" |} ∈ rejected.
Proof.
  destruct (resolution_shows_in_history sample.today sample.proposed_once 1
              "rejected" _ (or_intror eq_refl) eq_refl)
    as (accepted & rejected & Hr & _ & Hin).
  exists accepted, rejected. split; [exact Hr|]. by apply Hin.
Defined.

(** ** The chat insights *)

Lemma foldl_insight_step (l : list habit_history.row) acc :
  foldl insight_step acc
    ((λ h, (habit_history.habit h, habit_history.previous_value h,
            habit_history.new_value h, habit_history.status h,
            habit_history.date_applied h)) <$> l) =
  acc ++ omap insight_of l.
Proof.
  revert acc. induction l as [|h l IH]; intros acc.
  - simpl. by rewrite app_nil_r.
  - cbn [fmap list_fmap foldl insight_step omap list_omap].
    change (list_fmap _ _ ?f ?l) with (f <$> l).
    change (list_omap _ _ ?f ?l) with (omap f l).
    unfold insight_of at 1.
    destruct (bool_decide (habit_history.status h = "accepted"));
      [by rewrite IH, <- app_assoc|].
    destruct (bool_decide (habit_history.status h = "rejected"));
      [by rewrite IH, <- app_assoc|apply IH].
Qed.

Lemma chat_insights_run db user_id :
  answer (chat_insights true db user_id) =
  match sql.history_rows user_id db with
  | [] => Note no_history
  | rows => Insights (omap insight_of rows)
  end.
Proof.
  unfold chat_insights, get_db_connection, chat_insights_on, finish_report.
  rewrite run_bind, run_select. cbn [steps working connect id fst snd].
  unfold sql.history_of.
  destruct (sql.history_rows user_id db) as [|r rows] eqn:E; [done|].
  rewrite <- E.
  destruct (_ <$> sql.history_rows user_id db) as [|t ts] eqn:Et.
  - apply fmap_nil_inv in Et. congruence.
  - rewrite <- Et, foldl_insight_step. by rewrite E.
Qed.

Lemma length_insights (l : list habit_history.row) :
  length (omap insight_of l) =
  length (filter (λ h, habit_history.status h = "accepted" ∨
                       habit_history.status h = "rejected") l).
Proof.
  induction l as [|h l IH]; [done|].
  cbn [omap list_omap]. change (list_omap _ _ ?f ?l) with (omap f l).
  rewrite filter_cons. unfold insight_of at 1.
  case_bool_decide as Ha.
  { rewrite decide_True by tauto. simpl. by rewrite IH. }
  case_bool_decide as Hr.
  { rewrite decide_True by tauto. simpl. by rewrite IH. }
  by rewrite decide_False by tauto.
Qed.

(** X15: the chat insights are a message exactly when the user has no
    history entry; otherwise there is one sentence for each entry whose
    status is "accepted" or "rejected", latest date first, and an entry
    with any other status is passed over in silence.  On a store where
    every entry is accepted or rejected, which is all the lifecycle
    manager ever writes, there are as many sentences as entries. *)
Theorem insights_follow_the_history db user_id :
  let rows := sql.history_rows user_id db in
  (answer (chat_insights true db user_id) = Note no_history ↔
   ∀ h, h ∈ history db → habit_history.user_id h ≠ user_id) ∧
  (∀ insights,
     answer (chat_insights true db user_id) = Insights insights →
     insights = omap insight_of rows ∧
     length insights =
     length (filter (λ h, habit_history.status h = "accepted" ∨
                          habit_history.status h = "rejected") rows) ∧
     (resolved_only db →
      length insights =
      length (filter (λ h, habit_history.user_id h = user_id)
                (history db)))).
Proof.
  intros rows. rewrite chat_insights_run. fold rows.
  assert (Hperm : rows ≡ₚ filter (λ h, habit_history.user_id h = user_id)
                            (history db))
    by apply merge_sort_Permutation.
  split; [split|].
  - destruct rows; [|done]. intros _ h Hh Hu.
    assert (Hin : h ∈ filter (λ h, habit_history.user_id h = user_id)
                        (history db))
      by (by apply list_elem_of_filter).
    rewrite <- Hperm in Hin. by apply elem_of_nil in Hin.
  - intros Hnone. rewrite filter_none in Hperm by done.
    apply Permutation_nil_r in Hperm. by rewrite Hperm.
  - intros insights Hans.
    assert (Heq : insights = omap insight_of rows).
    { destruct rows; [done|]. by injection Hans as <-. }
    subst insights. split; [done|]. split; [apply length_insights|].
    intros Hres. rewrite length_insights, <- Hperm. f_equal.
    assert (Hall : Forall (λ h, habit_history.status h = "accepted" ∨
                                habit_history.status h = "rejected") rows).
    { apply Forall_forall. intros h Hh. rewrite Hperm in Hh.
      apply list_elem_of_filter in Hh as [_ Hh].
      unfold resolved_only in Hres. rewrite Forall_forall in Hres.
      by apply Hres. }
    clear Hans Hperm. induction Hall as [|h l Hh Hall IH]; [done|].
    rewrite filter_cons, decide_True by done. by rewrite IH.
Qed.

(** X15 at a store whose second entry has status "postponed": two
    entries, one sentence. *)
Lemma insights_follow_the_history_sample :
  length (sql.history_rows 1 scenario.odd_history) = 2%nat ∧
  ∃ insights,
    answer (chat_insights true scenario.odd_history 1) = Insights insights ∧
    length insights = 1%nat.
Proof.
  split; [by vm_compute|].
  set (ins := omap insight_of (sql.history_rows 1 scenario.odd_history)).
  assert (Hans : answer (chat_insights true scenario.odd_history 1) =
                 Insights ins) by (by vm_compute).
  destruct (proj2 (insights_follow_the_history scenario.odd_history 1) ins
              Hans) as (_ & Hlen & _).
  exists ins. split; [exact Hans|]. rewrite Hlen. by vm_compute.
Defined.

(** ** The meal loop on clock times *)

(** X16: on every clock time written "HH:MM" the meal loop succeeds: the
    two-digit fields are read back as the numbers they print, the new
    time is hour [max 6 (H - 1)] with the same minute, and it is a clock
    time again, so that the loop accepts its own output. *)
Theorem clock_times_are_retimed H M :
  0 ≤ H < 24 → 0 ≤ M < 60 →
  shifted (hh_mm H M) = Some (hh_mm (Z.max 6 (H - 1)) M) ∧
  6 ≤ Z.max 6 (H - 1) < 24 ∧
  is_Some (shifted (hh_mm (Z.max 6 (H - 1)) M)).
Proof.
  intros HH HM. split; [by apply shifted_hh_mm|]. split; [lia|].
  rewrite shifted_hh_mm by lia. by eexists.
Qed.

(** X16 at 00:30: a meal after midnight is moved to 06:30. *)
Lemma clock_times_are_retimed_sample : shifted "00:30" = Some "06:30".
Proof.
  assert (H0 : 0 ≤ 0 < 24) by lia. assert (H30 : 0 ≤ 30 < 60) by lia.
  exact (proj1 (clock_times_are_retimed 0 30 H0 H30)).
Defined.

(** X17: when no "meal_times" record is pending and every meal time of
    the latest routine parses, the answer carries the whole retimed
    sequence as one proposal, and the store holds one pending record per
    meal time, each with the old and the new time of that meal and the
    reason "Optimize meal timing". *)
Theorem meal_rule_stores_a_row_per_meal today db user_id w s l e st bad wk :
  sql.latest_routine user_id db = Some (w, s, Some l, e, st, bad, wk) →
  well_formed (Some l) →
  pending_of user_id "meal_times" db = [] →
  let out := adjust_habits true today db user_id in
  ∃ news,
    Forall2 (λ time new_time, shifted time = Some new_time) l news ∧
    adjustment.mk "meal_times" (adjustment.StrList news)
      ∈ proposed (reply out) ∧
    (∀ time new_time, (time, new_time) ∈ zip l news →
       ∃ id, sql.pending_row today id
               (user_id, VText time, VText new_time, "Optimize meal timing",
                "meal_times") ∈ adjustments (store out)) ∧
    length (pending_of user_id "meal_times" (store out)) = length l.
Proof. apply meal_retiming. Qed.

(** X17 at the sample store: three meal times, three pending rows. *)
Lemma meal_rule_stores_a_row_per_meal_sample :
  ∃ news,
    Forall2 (λ time new_time, shifted time = Some new_time)
      ["07:00"; "12:30"; "19:00"] news ∧
    length (pending_of 1 "meal_times" sample.proposed_once) = 3%nat.
Proof.
  assert (Hw : well_formed (Some ["07:00"; "12:30"; "19:00"])).
  { repeat constructor; by eexists. }
  destruct (meal_rule_stores_a_row_per_meal sample.today sample.fresh 1
              (datetime.mkTime 7 0 0 0) (datetime.mkTime 3 15 0 0)
              ["07:00"; "12:30"; "19:00"] 5 6
              (Some ["coffee"; "sugar"; "lateNight"]) "15-minute walk"
              eq_refl Hw eq_refl)
    as (news & Hn & _ & _ & Hlen).
  exists news. by split.
Defined.
